(** * Persistent Run Buttons: selection and synchronisation logic

    A shallow embedding of [src/extension.ts]: the enumeration of launch
    configurations over the workspace folders, the textual key of a
    configuration and its resolution, the module-level selection slot with
    its revalidation inside [updateStatusBar], and the run / debug commands
    that hand a dispatch target to the debug service.

    The host (VS Code) is a record of what the extension reads from it; the
    module-level [let] variables and the workspace state are a record that
    every function takes and returns. *)

From Stdlib Require Import ZArith Ascii.
From stdpp Require Import base option list strings gmap.

(** ** Values of the host *)

(** JSON values found in a launch configuration.  They are never taken
    apart here, so no induction principle is generated. *)
#[local] Unset Elimination Schemes.
Inductive JsValue : Type :=
| JsNull
| JsBool (b : bool)
| JsNumber (n : Z)
| JsString (s : string)
| JsArray (xs : list JsValue)
| JsObject (kvs : list (string * JsValue)).
#[local] Set Elimination Schemes.

(** [vscode.WorkspaceFolder]. *)
Module WorkspaceFolder.
Record t : Type := mk { uri : string; name : string; index : nat }.
End WorkspaceFolder.

(** [vscode.DebugConfiguration]: [name] is a string by its interface; [props]
    holds every other own property of the object ("type", "request",
    "configurations", ...). *)
Module DebugConfiguration.
Record t : Type := mk { name : string; props : gmap string JsValue }.

(** The JavaScript test ['k' in config], for a property other than name. *)
Definition has (k : string) (c : t) : bool := bool_decide (is_Some (props c !! k)).
End DebugConfiguration.

(** [interface LaunchConfig]. *)
Module LaunchConfig.
Record t : Type :=
  mk { name : string; config : DebugConfiguration.t; folder : WorkspaceFolder.t }.
End LaunchConfig.

(** What the extension reads from the host: the workspace folders (undefined
    when no workspace is open), the arrays of the "launch" section of a
    folder ([launch_get uri key] is
    [workspace.getConfiguration('launch', uri).get(key)]), and the two
    settings of the "persistentRunButton" section. *)
Record Host : Type := mkHost {
  workspaceFolders : option (list WorkspaceFolder.t);
  launch_get : string -> string -> option (list DebugConfiguration.t);
  showInStatusBar : option bool;
  hideBuiltInRunButton : option bool
}.

(** ** Strings *)

(** [s.split(sep)] for a one-character separator: every occurrence of the
    separator cuts, and the result always has at least one piece. *)
Fixpoint split (sep : Ascii.ascii) (s : string) : list string :=
  match s with
  | EmptyString => [EmptyString]
  | String c rest =>
      if Ascii.eqb c sep then EmptyString :: split sep rest
      else match split sep rest with
           | [] => [String c EmptyString]
           | piece :: pieces => String c piece :: pieces
           end
  end.

(** [s === v] where [v] may be undefined. *)
Definition strict_eq (s : string) (v : option string) : bool :=
  match v with
  | Some t => String.eqb s t
  | None => false
  end.

(** No occurrence of the character in the string. *)
Fixpoint lacks (sep : Ascii.ascii) (s : string) : bool :=
  match s with
  | EmptyString => true
  | String c rest => negb (Ascii.eqb c sep) && lacks sep rest
  end.

(** ** Configuration source *)

Definition push {A : Type} (xs : list A) (x : A) : list A := xs ++ [x].

(** The body of the outer [for] loop of [getAllConfigs] for one folder. *)
Definition getAllConfigs_folder (h : Host)
    (configs : list LaunchConfig.t) (folder : WorkspaceFolder.t) : list LaunchConfig.t :=
  let configurations :=
    default [] (launch_get h (WorkspaceFolder.uri folder) "configurations") in
  let compoundConfigs :=
    default [] (launch_get h (WorkspaceFolder.uri folder) "compounds") in
  foldl (fun configs config =>
           push configs (LaunchConfig.mk (DebugConfiguration.name config) config folder))
        configs (concat [configurations; compoundConfigs]).

Definition getAllConfigs (h : Host) : list LaunchConfig.t :=
  match workspaceFolders h with
  | None => []
  | Some folders => foldl (getAllConfigs_folder h) [] folders
  end.

(** ** Configuration identity *)

Definition getConfigKey (cfg : LaunchConfig.t) : string :=
  WorkspaceFolder.name (LaunchConfig.folder cfg) +:+ ":" +:+ LaunchConfig.name cfg.

(** The predicate given to [find] in [getConfigFromKey]. *)
Definition key_matches (folderName configName : option string) (cfg : LaunchConfig.t) : bool :=
  strict_eq (WorkspaceFolder.name (LaunchConfig.folder cfg)) folderName
  && strict_eq (LaunchConfig.name cfg) configName.

Definition getConfigFromKey (h : Host) (key : string) : option LaunchConfig.t :=
  let parts := split ":"%char key in
  let folderName := parts !! 0%nat in
  let configName := parts !! 1%nat in
  let configs := getAllConfigs h in
  List.find (key_matches folderName configName) configs.

(** ** Invocation dispatcher *)

Definition isCompound (config : DebugConfiguration.t) : bool :=
  DebugConfiguration.has "configurations" config
  && negb (DebugConfiguration.has "type" config).

(** The second argument of [debug.startDebugging]: a name or a configuration. *)
Inductive DispatchTarget : Type :=
| ByName (name : string)
| ByValue (config : DebugConfiguration.t).

(** [configToStart] of the run and debug commands. *)
Definition configToStart (selected : LaunchConfig.t) : DispatchTarget :=
  if isCompound (LaunchConfig.config selected)
  then ByName (DebugConfiguration.name (LaunchConfig.config selected))
  else ByValue (LaunchConfig.config selected).

(** ** Extension state *)

(** [vscode.StatusBarItem], as far as the extension writes it. *)
Record StatusBarItem : Type := mkItem {
  text : string;
  command : string;
  tooltip : string;
  visible : bool
}.

Definition show (b : StatusBarItem) : StatusBarItem :=
  mkItem (text b) (command b) (tooltip b) true.
Definition hide (b : StatusBarItem) : StatusBarItem :=
  mkItem (text b) (command b) (tooltip b) false.
Definition with_text (t : string) (b : StatusBarItem) : StatusBarItem :=
  mkItem t (command b) (tooltip b) (visible b).

(** Calls to services of the host, in the order they are made. *)
Inductive Effect : Type :=
| StartDebugging (folder : WorkspaceFolder.t) (target : DispatchTarget) (noDebug : bool)
| ExecuteCommand (command : string)
| ShowInformationMessage (message : string).

(** The module-level variables of the extension, the value stored under
    'lastConfigKey' in [context.workspaceState], and the calls made so far.
    [selectConfigDisposable] and [context.subscriptions] only hold the
    registrations of callbacks that never change and are left out. *)
Record State : Type := mkState {
  selectedConfig : option LaunchConfig.t;
  configButton : option StatusBarItem;
  runButton : option StatusBarItem;
  debugButton : option StatusBarItem;
  lastConfigKey : option string;
  effects : list Effect
}.

Definition set_selectedConfig (v : option LaunchConfig.t) (st : State) : State :=
  mkState v (configButton st) (runButton st) (debugButton st) (lastConfigKey st) (effects st).
Definition set_configButton (v : option StatusBarItem) (st : State) : State :=
  mkState (selectedConfig st) v (runButton st) (debugButton st) (lastConfigKey st) (effects st).
Definition set_runButton (v : option StatusBarItem) (st : State) : State :=
  mkState (selectedConfig st) (configButton st) v (debugButton st) (lastConfigKey st) (effects st).
Definition set_debugButton (v : option StatusBarItem) (st : State) : State :=
  mkState (selectedConfig st) (configButton st) (runButton st) v (lastConfigKey st) (effects st).
Definition set_lastConfigKey (v : option string) (st : State) : State :=
  mkState (selectedConfig st) (configButton st) (runButton st) (debugButton st) v (effects st).
Definition call (e : Effect) (st : State) : State :=
  mkState (selectedConfig st) (configButton st) (runButton st) (debugButton st)
          (lastConfigKey st) (push (effects st) e).

(** The state of a freshly loaded module, with the workspace state as the
    previous session left it. *)
Definition loaded (persisted : option string) : State :=
  mkState None None None None persisted [].

(** ** Selection state *)

(** The predicate given to [some] in [updateStatusBar]. *)
Definition same_names (currentFolder currentName : string) (cfg : LaunchConfig.t) : bool :=
  String.eqb (WorkspaceFolder.name (LaunchConfig.folder cfg)) currentFolder
  && String.eqb (LaunchConfig.name cfg) currentName.

Definition stillExists (h : Host) (selected : LaunchConfig.t) : bool :=
  let configs := getAllConfigs h in
  let currentFolder := WorkspaceFolder.name (LaunchConfig.folder selected) in
  let currentName := LaunchConfig.name selected in
  existsb (same_names currentFolder currentName) configs.

(** The block "Validate that selected config still exists" of
    [updateStatusBar], as a function of the selection slot. *)
Definition reconcile (h : Host) (selected : option LaunchConfig.t) : option LaunchConfig.t :=
  match selected with
  | Some sel =>
      let configs := getAllConfigs h in
      if negb (stillExists h sel)
      then (if bool_decide (0 < length configs) then configs !! 0%nat else None)
      else Some sel
  | None => None
  end.

(** A selection is current when it is empty or names an enumerated entry. *)
Definition current (h : Host) (selected : option LaunchConfig.t) : Prop :=
  forall sel, selected = Some sel -> stillExists h sel = true.

Definition updateStatusBar (h : Host) (st : State) : State :=
  match configButton st with
  | None => st
  | Some button =>
      let st := set_selectedConfig (reconcile h (selectedConfig st)) st in
      match selectedConfig st with
      | Some sel =>
          set_configButton
            (Some (with_text ("$(debug-configure) " +:+ LaunchConfig.name sel) button)) st
      | None =>
          set_configButton (Some (with_text "$(debug-configure) No Config" button)) st
      end
  end.

(** A button that does not exist yet is created and given its command, text
    and tooltip; a created item is not visible before [show]. *)
Definition updateStatusBarVisibility (h : Host) (st : State) : State :=
  let shouldShow := default true (showInStatusBar h) in
  if shouldShow then
    let st :=
      match configButton st with
      | None =>
          set_configButton
            (Some (mkItem "" "persistentRunButton.selectConfig" "Select Debug Configuration" false)) st
      | Some _ => st
      end in
    let st :=
      match debugButton st with
      | None =>
          set_debugButton
            (Some (mkItem "$(debug-alt)" "persistentRunButton.debugSelected" "Start Debugging" false)) st
      | Some _ => st
      end in
    let st :=
      match runButton st with
      | None =>
          set_runButton
            (Some (mkItem "$(run)" "persistentRunButton.runSelected" "Run Without Debugging" false)) st
      | Some _ => st
      end in
    let st := set_configButton (show <$> configButton st) st in
    let st := set_runButton (show <$> runButton st) st in
    let st := set_debugButton (show <$> debugButton st) st in
    updateStatusBar h st
  else
    let st := set_configButton (hide <$> configButton st) st in
    let st := set_runButton (hide <$> runButton st) st in
    set_debugButton (hide <$> debugButton st) st.

Definition applyBuiltInButtonVisibility (h : Host) (st : State) : State :=
  let hideBuiltIn := default false (hideBuiltInRunButton h) in
  if hideBuiltIn then call (ExecuteCommand "setContext") st else st.

(** ** Commands *)

(** An item of the quick pick built by the select command. *)
Record QuickPickItem : Type := mkPick {
  label : string;
  description : option JsValue;
  detail : string;
  picked : LaunchConfig.t
}.

(** What the user answers when a callback asks: whether the button of the
    "No debug configurations found." message is pressed, and which item of
    the quick pick is chosen, by position ([None]: the picker is dismissed).
    The host does not change while a callback awaits an answer. *)
Record UserInput : Type := mkInput {
  create_configuration : bool;
  pick : option nat
}.

(** The entry that the user picks, if any. *)
Definition chosen (h : Host) (ui : UserInput) : option LaunchConfig.t :=
  pick ui ≫= (fun i => getAllConfigs h !! i).

(** The callback registered for 'persistentRunButton.selectConfig'. *)
Definition selectConfig (h : Host) (ui : UserInput) (st : State) : State :=
  let configs := getAllConfigs h in
  if bool_decide (length configs = 0%nat) then
    let st := call (ShowInformationMessage "No debug configurations found.") st in
    if create_configuration ui
    then call (ExecuteCommand "workbench.action.debug.configure") st
    else st
  else
    let items :=
      map (fun cfg =>
             mkPick (LaunchConfig.name cfg)
                    (DebugConfiguration.props (LaunchConfig.config cfg) !! "type")
                    (WorkspaceFolder.name (LaunchConfig.folder cfg))
                    cfg) configs in
    match pick ui ≫= (fun i => items !! i) with
    | Some selected =>
        let st := set_selectedConfig (Some (picked selected)) st in
        let configKey := getConfigKey (picked selected) in
        let st := set_lastConfigKey (Some configKey) st in
        updateStatusBar h st
    | None => st
    end.

(** The callback registered for 'persistentRunButton.runSelected'. *)
Definition runSelectedCommand (h : Host) (ui : UserInput) (st : State) : State :=
  let st :=
    match selectedConfig st with
    | None => selectConfig h ui st
    | Some _ => st
    end in
  match selectedConfig st with
  | None => st
  | Some sel =>
      call (StartDebugging (LaunchConfig.folder sel) (configToStart sel) true) st
  end.

(** The callback registered for 'persistentRunButton.debugSelected'. *)
Definition debugSelectedCommand (h : Host) (ui : UserInput) (st : State) : State :=
  let st :=
    match selectedConfig st with
    | None => selectConfig h ui st
    | Some _ => st
    end in
  match selectedConfig st with
  | None => st
  | Some sel =>
      call (StartDebugging (LaunchConfig.folder sel) (configToStart sel) false) st
  end.

(** ** Activation *)

(** A string is truthy when it is not empty. *)
Definition truthy (s : string) : bool := negb (String.eqb s "").

(** "Restore last selected configuration" and the fallback to the first
    configuration, at the head of [activate]. *)
Definition restoreSelection (h : Host) (st : State) : State :=
  let st :=
    match lastConfigKey st with
    | Some key =>
        if truthy key then set_selectedConfig (getConfigFromKey h key) st else st
    | None => st
    end in
  match selectedConfig st with
  | Some _ => st
  | None =>
      let configs := getAllConfigs h in
      if bool_decide (0 < length configs)
      then set_selectedConfig (configs !! 0%nat) st
      else st
  end.

Definition activate (h : Host) (st : State) : State :=
  let st := restoreSelection h st in
  let st := updateStatusBarVisibility h st in
  applyBuiltInButtonVisibility h st.

(** ** Change notification *)

(** A change of the settings as [onDidChangeConfiguration] reports it: a
    section that changed comes with its new content, and
    [affectsConfiguration] answers true for exactly those sections.
    [reload_window] is the answer to the reload prompt. *)
Record ConfigurationChange : Type := mkChange {
  launch_change : option (string -> string -> option (list DebugConfiguration.t));
  showInStatusBar_change : option (option bool);
  hideBuiltInRunButton_change : option (option bool);
  reload_window : bool
}.

Definition apply_change (c : ConfigurationChange) (h : Host) : Host :=
  mkHost (workspaceFolders h)
         (default (launch_get h) (launch_change c))
         (default (showInStatusBar h) (showInStatusBar_change c))
         (default (hideBuiltInRunButton h) (hideBuiltInRunButton_change c)).

Definition set_folders (folders : option (list WorkspaceFolder.t)) (h : Host) : Host :=
  mkHost folders (launch_get h) (showInStatusBar h) (hideBuiltInRunButton h).

(** The listener given to [workspace.onDidChangeConfiguration]. *)
Definition onDidChangeConfiguration (h : Host) (c : ConfigurationChange) (st : State) : State :=
  let st := if bool_decide (is_Some (launch_change c)) then updateStatusBar h st else st in
  let st :=
    if bool_decide (is_Some (showInStatusBar_change c))
    then updateStatusBarVisibility h st else st in
  if bool_decide (is_Some (hideBuiltInRunButton_change c)) then
    let st :=
      call (ShowInformationMessage
              "Please reload VS Code for the built-in run button setting to take effect.") st in
    if reload_window c then call (ExecuteCommand "workbench.action.reloadWindow") st else st
  else st.

(** The listener given to [workspace.onDidChangeWorkspaceFolders]. *)
Definition onDidChangeWorkspaceFolders (h : Host) (st : State) : State :=
  updateStatusBar h st.

(** What can happen after activation.  The host delivers one event at a
    time; an event that changes the host carries the new content, and its
    listener runs against the changed host. *)
Inductive Event : Type :=
| DidChangeWorkspaceFolders (folders : option (list WorkspaceFolder.t))
| DidChangeConfiguration (change : ConfigurationChange)
| SelectConfig (ui : UserInput)
| RunSelected (ui : UserInput)
| DebugSelected (ui : UserInput).

Definition step (hs : Host * State) (ev : Event) : Host * State :=
  let (h, st) := hs in
  match ev with
  | DidChangeWorkspaceFolders folders =>
      let h := set_folders folders h in (h, onDidChangeWorkspaceFolders h st)
  | DidChangeConfiguration change =>
      let h := apply_change change h in (h, onDidChangeConfiguration h change st)
  | SelectConfig ui => (h, selectConfig h ui st)
  | RunSelected ui => (h, runSelectedCommand h ui st)
  | DebugSelected ui => (h, debugSelectedCommand h ui st)
  end.

(** A session: activation on a freshly loaded module, then events in turn. *)
Definition session (h : Host) (persisted : option string) (evs : list Event) : Host * State :=
  foldl step (h, activate h (loaded persisted)) evs.


(** ** The contracts as the specification words them *)

(** The enumeration: for each root in order, its plain configurations
    followed by its compounds, each in declaration order. *)
Definition entries_of (h : Host) (root : WorkspaceFolder.t) : list LaunchConfig.t :=
  let plain := default [] (launch_get h (WorkspaceFolder.uri root) "configurations") in
  let compounds := default [] (launch_get h (WorkspaceFolder.uri root) "compounds") in
  map (fun c => LaunchConfig.mk (DebugConfiguration.name c) c root) (plain ++ compounds).

Definition enumerate (h : Host) : list LaunchConfig.t :=
  flat_map (entries_of h) (default [] (workspaceFolders h)).

(** Cutting a key at its first separator: the text before it and all the
    text after it; nothing when there is no separator. *)
Fixpoint split_first (sep : Ascii.ascii) (s : string) : option (string * string) :=
  match s with
  | EmptyString => None
  | String c rest =>
      if Ascii.eqb c sep then Some (EmptyString, rest)
      else match split_first sep rest with
           | Some (before, after) => Some (String c before, after)
           | None => None
           end
  end.

(** [resolve] as worded: split on the first ':', then the first entry whose
    root name and configuration name are the two components. *)
Definition resolve_spec (h : Host) (key : string) : option LaunchConfig.t :=
  match split_first ":"%char key with
  | Some (rootName, configName) =>
      List.find (same_names rootName configName) (enumerate h)
  | None => None
  end.

(** ** Example workspaces *)

Module Examples.
(** A host whose launch sections are given by a table from folder uri to
    the arrays of the section. *)
Definition host (folders : list WorkspaceFolder.t)
    (table : gmap string (gmap string (list DebugConfiguration.t))) : Host :=
  mkHost (Some folders) (fun uri key => table !! uri ≫= (fun section => section !! key))
         None None.

Definition plain (name type : string) : DebugConfiguration.t :=
  DebugConfiguration.mk name {[ "type" := JsString type; "request" := JsString "launch" ]}.

Definition compound (name : string) (members : list string) : DebugConfiguration.t :=
  DebugConfiguration.mk name {[ "configurations" := JsArray (JsString <$> members) ]}.

Definition rootA : WorkspaceFolder.t := WorkspaceFolder.mk "file:///work/a" "RootA" 0.
Definition rootB : WorkspaceFolder.t := WorkspaceFolder.mk "file:///work/b" "RootB" 1.

Definition launch : DebugConfiguration.t := plain "Launch" "node".
Definition test : DebugConfiguration.t := plain "Test" "node".
Definition fullStack : DebugConfiguration.t := compound "Full Stack" ["Launch"; "Test"].

Definition entry (c : DebugConfiguration.t) (root : WorkspaceFolder.t) : LaunchConfig.t :=
  LaunchConfig.mk (DebugConfiguration.name c) c root.

(** Two roots, each with a configuration named Launch. *)
Definition twoRoots : Host :=
  host [rootA; rootB]
       {[ "file:///work/a" := {[ "configurations" := [launch] ]};
          "file:///work/b" := {[ "configurations" := [launch] ]} ]}.

(** One root with two configurations and a compound. *)
Definition oneRoot : Host :=
  host [rootA]
       {[ "file:///work/a" :=
            {[ "configurations" := [launch; test]; "compounds" := [fullStack] ]} ]}.

(** The same root after Launch has been deleted. *)
Definition onlyTest : Host :=
  host [rootA] {[ "file:///work/a" := {[ "configurations" := [test] ]} ]}.

(** The same root after the type of Launch has been edited. *)
Definition launchEdited : DebugConfiguration.t := plain "Launch" "python".
Definition edited : Host :=
  host [rootA]
       {[ "file:///work/a" :=
            {[ "configurations" := [launchEdited; test]; "compounds" := [fullStack] ]} ]}.

(** No root at all. *)
Definition noRoots : Host := host [] ∅.

(** Two roots with the same display name. *)
Definition app1 : WorkspaceFolder.t := WorkspaceFolder.mk "file:///x/app" "app" 0.
Definition app2 : WorkspaceFolder.t := WorkspaceFolder.mk "file:///y/app" "app" 1.
Definition twins : Host :=
  host [app1; app2]
       {[ "file:///x/app" := {[ "configurations" := [launch] ]};
          "file:///y/app" := {[ "configurations" := [launch] ]} ]}.

(** A configuration whose name contains the separator of keys. *)
Definition proj : WorkspaceFolder.t := WorkspaceFolder.mk "file:///work/proj" "proj" 0.
Definition pythonFile : DebugConfiguration.t := plain "Python: File" "python".
Definition colonName : Host :=
  host [proj] {[ "file:///work/proj" := {[ "configurations" := [pythonFile] ]} ]}.

(** The status bar is switched off in the settings. *)
Definition hidden (h : Host) : Host :=
  mkHost (workspaceFolders h) (launch_get h) (Some false) (hideBuiltInRunButton h).

Definition noAnswer : UserInput := mkInput false None.
Definition pickSecond : UserInput := mkInput false (Some 1%nat).

(** The launch section of [oneRoot] is edited so that only Test is left. *)
Definition deleteLaunch : ConfigurationChange :=
  mkChange (Some (launch_get onlyTest)) None None false.

(** The state once the extension is active in [oneRoot], Launch having
    been selected in an earlier session. *)
Definition launchSelected : State := activate oneRoot (loaded (Some "RootA:Launch")).
End Examples.

(** ** Display and wiring of the status bar *)

(** The text that [updateStatusBar] writes for a selection. *)
Definition label_of (selected : option LaunchConfig.t) : string :=
  match selected with
  | Some sel => "$(debug-configure) " +:+ LaunchConfig.name sel
  | None => "$(debug-configure) No Config"
  end.

(** The config button, when it exists, shows the selection. *)
Definition displayed (st : State) : Prop :=
  forall button, configButton st = Some button -> text button = label_of (selectedConfig st).

(** The three buttons exist together, each bound to its command, and are
    visible exactly when the setting says so. *)
Definition wired (h : Host) (st : State) : Prop :=
  (configButton st = None /\ runButton st = None /\ debugButton st = None)
  \/ exists cb rb db,
       configButton st = Some cb /\ runButton st = Some rb /\ debugButton st = Some db
       /\ command cb = "persistentRunButton.selectConfig"
       /\ command rb = "persistentRunButton.runSelected"
       /\ command db = "persistentRunButton.debugSelected"
       /\ visible cb = default true (showInStatusBar h)
       /\ visible rb = default true (showInStatusBar h)
       /\ visible db = default true (showInStatusBar h).

(** Two buttons that differ in their text at most. *)
Definition alike (b b' : option StatusBarItem) : Prop :=
  match b, b' with
  | None, None => True
  | Some x, Some y => command x = command y /\ tooltip x = tooltip y /\ visible x = visible y
  | _, _ => False
  end.

Definition same_wiring (st st' : State) : Prop :=
  alike (configButton st) (configButton st')
  /\ alike (runButton st) (runButton st')
  /\ alike (debugButton st) (debugButton st').

(** The events that come from the workspace, not from a command. *)
Definition is_change (ev : Event) : bool :=
  match ev with
  | DidChangeWorkspaceFolders _ | DidChangeConfiguration _ => true
  | _ => false
  end.

(** The changes that leave the setting of the status bar alone. *)
Definition keeps_setting (ev : Event) : bool :=
  match ev with
  | DidChangeWorkspaceFolders _ => true
  | DidChangeConfiguration c => bool_decide (showInStatusBar_change c = None)
  | _ => false
  end.

(** ** Counting sessions *)

Definition is_start (e : Effect) : bool :=
  match e with
  | StartDebugging _ _ _ => true
  | _ => false
  end.

(** The number of calls of [debug.startDebugging] in a log. *)
Definition dispatches (log : list Effect) : nat := length (filter (fun e => is_start e = true) log).

Definition is_start_event (ev : Event) : bool :=
  match ev with
  | RunSelected _ | DebugSelected _ => true
  | _ => false
  end.

(** The number of run and debug commands in a trace of events. *)
Definition starts (evs : list Event) : nat :=
  length (filter (fun ev => is_start_event ev = true) evs).

(** ** Registration of the commands *)

(** What [activate] pushes on [context.subscriptions]: the registration of a
    command under a handle, or a listener of the workspace. *)
Inductive Disposable : Type :=
| Registered (command : string) (handle : nat)
| Listening (event : string).

(** The commands of the host (command identifier to the handle of its
    registration), the next handle, the module-level
    [selectConfigDisposable] and [context.subscriptions]. *)
Record Registry : Type := mkRegistry {
  commands : gmap string nat;
  fresh : nat;
  selectConfigDisposable : option Disposable;
  subscriptions : list Disposable
}.

(** [disposable.dispose()]: the registration is removed if it is still the
    one of its command; disposing again, or disposing a listener, leaves the
    commands alone. *)
Definition dispose (d : Disposable) (commands : gmap string nat) : gmap string nat :=
  match d with
  | Registered command handle =>
      if bool_decide (commands !! command = Some handle) then delete command commands
      else commands
  | Listening _ => commands
  end.

(** [commands.registerCommand(id, callback)]: it throws ([None]) when the
    identifier is already registered. *)
Definition registerCommand (id : string) (r : Registry) : option (Disposable * Registry) :=
  match commands r !! id with
  | Some _ => None
  | None =>
      Some (Registered id (fresh r),
            mkRegistry (<[id := fresh r]> (commands r)) (S (fresh r))
                       (selectConfigDisposable r) (subscriptions r))
  end.

Definition registerSelectConfigCommand (r : Registry) : option Registry :=
  let r :=
    match selectConfigDisposable r with
    | Some d =>
        mkRegistry (dispose d (commands r)) (fresh r) (selectConfigDisposable r) (subscriptions r)
    | None => r
    end in
  match registerCommand "persistentRunButton.selectConfig" r with
  | Some (d, r) =>
      Some (mkRegistry (commands r) (fresh r) (Some d) (push (subscriptions r) d))
  | None => None
  end.

(** The registrations that [activate] makes, in its order. *)
Definition activate_registrations (r : Registry) : option Registry :=
  r ← registerSelectConfigCommand r;
  '(runSelected, r) ← registerCommand "persistentRunButton.runSelected" r;
  '(debugSelected, r) ← registerCommand "persistentRunButton.debugSelected" r;
  let r :=
    mkRegistry (commands r) (fresh r) (selectConfigDisposable r)
               (subscriptions r ++ [runSelected; debugSelected]) in
  Some (mkRegistry (commands r) (fresh r) (selectConfigDisposable r)
                   (subscriptions r ++ [Listening "onDidChangeWorkspaceFolders";
                                        Listening "onDidChangeConfiguration"])).

(** The select command registers itself again once for each entry picked. *)
Fixpoint reregister (picks : nat) (r : Registry) : option Registry :=
  match picks with
  | O => Some r
  | S picks => r ← registerSelectConfigCommand r; reregister picks r
  end.

(** On deactivation the host disposes everything in [context.subscriptions]. *)
Definition dispose_all (ds : list Disposable) (commands : gmap string nat) : gmap string nat :=
  foldl (fun commands d => dispose d commands) commands ds.

Definition unregistered : Registry := mkRegistry ∅ 0 None [].

(** The registry once [activate] has run. *)
Definition activated : Registry :=
  mkRegistry
    (<["persistentRunButton.debugSelected" := 2]>
       (<["persistentRunButton.runSelected" := 1]>
          (<["persistentRunButton.selectConfig" := 0]> ∅)))
    3
    (Some (Registered "persistentRunButton.selectConfig" 0))
    [Registered "persistentRunButton.selectConfig" 0;
     Registered "persistentRunButton.runSelected" 1;
     Registered "persistentRunButton.debugSelected" 2;
     Listening "onDidChangeWorkspaceFolders";
     Listening "onDidChangeConfiguration"].

(** The select command is registered under the handle that the module
    holds. *)
Definition registered (r : Registry) : Prop :=
  exists handle,
    selectConfigDisposable r = Some (Registered "persistentRunButton.selectConfig" handle)
    /\ commands r !! "persistentRunButton.selectConfig" = Some handle
    /\ handle < fresh r.

(** Every registration in force has its disposable among the subscriptions. *)
Definition covered (r : Registry) : Prop :=
  forall id handle, commands r !! id = Some handle -> In (Registered id handle) (subscriptions r).

(** ** The revision without compounds *)

(** The earlier revision of the file enumerates the "configurations" of each
    folder only. *)
Module Legacy.
Definition getAllConfigs_folder (h : Host)
    (configs : list LaunchConfig.t) (folder : WorkspaceFolder.t) : list LaunchConfig.t :=
  let configurations :=
    default [] (launch_get h (WorkspaceFolder.uri folder) "configurations") in
  foldl (fun configs config =>
           push configs (LaunchConfig.mk (DebugConfiguration.name config) config folder))
        configs configurations.

Definition getAllConfigs (h : Host) : list LaunchConfig.t :=
  match workspaceFolders h with
  | None => []
  | Some folders => foldl (getAllConfigs_folder h) [] folders
  end.
End Legacy.

(** The host with the "compounds" of every launch section taken away. *)
Definition without_compounds (h : Host) : Host :=
  mkHost (workspaceFolders h)
         (fun uri key => if String.eqb key "compounds" then None else launch_get h uri key)
         (showInStatusBar h) (hideBuiltInRunButton h).

(** ** More example workspaces *)

Module Workspaces.
(** A root whose launch section has neither array. *)
Definition bare : WorkspaceFolder.t := WorkspaceFolder.mk "file:///work/bare" "bare" 1.

Definition withBare : Host :=
  Examples.host [Examples.rootA; bare]
    {[ "file:///work/a" :=
         {[ "configurations" := [Examples.launch; Examples.test];
            "compounds" := [Examples.fullStack] ]} ]}.

(** The user presses "Create Configuration". *)
Definition create : UserInput := mkInput true None.

(** The user picks an item that the list does not have. *)
Definition pickNinth : UserInput := mkInput false (Some 9%nat).

(** Nothing selected: the extension activated in a workspace without roots. *)
Definition nothingSelected : State := activate Examples.noRoots (loaded None).

(** A session in which the status bar is switched off. *)
Definition hiddenLaunch : State :=
  activate (Examples.hidden Examples.oneRoot) (loaded (Some "RootA:Launch")).

(** The setting that shows the status bar is switched off. *)
Definition switchOff : ConfigurationChange := mkChange None (Some (Some false)) None false.

(** A root with its configurations is added to an empty workspace. *)
Definition rootsAppear : list Event :=
  [DidChangeConfiguration (mkChange (Some (launch_get Examples.oneRoot)) None None false);
   DidChangeWorkspaceFolders (Some [Examples.rootA])].
End Workspaces.

(** * Properties *)

(** ** Lists and strings *)

Section Loops.
Context {A B : Type}.

(** A loop that pushes [f x] for each [x] appends the mapped list. *)
Lemma foldl_push (f : A -> B) (xs : list A) (acc : list B) :
  foldl (fun acc x => push acc (f x)) acc xs = acc ++ map f xs.
Proof.
  revert acc. induction xs as [|x xs IH]; intros acc; simpl.
  - by rewrite app_nil_r.
  - rewrite IH. unfold push. by rewrite <- app_assoc.
Qed.

(** [configs.length > 0 ? configs[0] : undefined] is the head, if any. *)
Lemma first_or_undefined (xs : list A) :
  (if bool_decide (0 < length xs) then xs !! 0%nat else None) = head xs.
Proof. destruct xs; reflexivity. Qed.

(** [find] succeeds exactly when [some] answers true. *)
Lemma find_is_Some_existsb (p : A -> bool) (xs : list A) :
  is_Some (List.find p xs) <-> existsb p xs = true.
Proof.
  induction xs as [|x xs IH]; simpl.
  - split; [intros [? ?]; done | done].
  - destruct (p x); simpl; [split; eauto | apply IH].
Qed.

Lemma find_None_existsb (p : A -> bool) (xs : list A) :
  List.find p xs = None <-> existsb p xs = false.
Proof.
  induction xs as [|x xs IH]; simpl; [done|].
  destruct (p x); simpl; [split; done | apply IH].
Qed.

(** An element found is the first that satisfies the predicate. *)
Lemma find_first (p : A -> bool) (xs : list A) (x : A) :
  List.find p xs = Some x ->
  exists before after,
    xs = before ++ x :: after /\ p x = true /\ forall y, In y before -> p y = false.
Proof.
  induction xs as [|y xs IH]; simpl; [done|].
  destruct (p y) eqn:Hy.
  - intros [= <-]. exists [], xs. repeat split; [done|]. intros ? [].
  - intros Hx. destruct (IH Hx) as (before & after & -> & Hp & Hbefore).
    exists (y :: before), after. repeat split; [done|].
    intros z [<-|Hz]; [done|by apply Hbefore].
Qed.
End Loops.

Section Split.
Variable sep : Ascii.ascii.

Lemma split_nonempty (s : string) : split sep s <> [].
Proof.
  destruct s as [|c rest]; simpl; [done|].
  destruct (Ascii.eqb c sep); [done|]. by destruct (split sep rest).
Qed.

(** A string without the separator is one piece. *)
Lemma split_lacks (s : string) : lacks sep s = true -> split sep s = [s].
Proof.
  induction s as [|c rest IH]; simpl; [done|].
  destruct (Ascii.eqb c sep); simpl; [done|]. intros H. by rewrite IH.
Qed.

(** The first piece of [a ++ sep ++ b] is [a] when [a] has no separator. *)
Lemma split_app (a b : string) :
  lacks sep a = true -> split sep (a +:+ String sep b) = a :: split sep b.
Proof.
  induction a as [|c rest IH]; simpl.
  - intros _. by rewrite Ascii.eqb_refl.
  - destruct (Ascii.eqb c sep); simpl; [done|]. intros H. by rewrite (IH H).
Qed.

Lemma split_first_app (a b : string) :
  lacks sep a = true -> split_first sep (a +:+ String sep b) = Some (a, b).
Proof.
  induction a as [|c rest IH]; simpl.
  - intros _. by rewrite Ascii.eqb_refl.
  - destruct (Ascii.eqb c sep); simpl; [done|]. intros H. by rewrite (IH H).
Qed.

Lemma split_first_None (s : string) : split_first sep s = None -> lacks sep s = true.
Proof.
  induction s as [|c rest IH]; simpl; [done|].
  destruct (Ascii.eqb c sep); simpl; [done|].
  destruct (split_first sep rest) as [[? ?]|]; [done|]. auto.
Qed.

Lemma split_first_Some (s before after : string) :
  split_first sep s = Some (before, after) ->
  s = before +:+ String sep after /\ lacks sep before = true.
Proof.
  revert before. induction s as [|c rest IH]; intros before; simpl; [done|].
  destruct (Ascii.eqb c sep) eqn:Hc.
  - intros [= <- <-]. apply Ascii.eqb_eq in Hc as ->. done.
  - destruct (split_first sep rest) as [[b a]|]; [|done].
    intros [= <- <-]. destruct (IH b eq_refl) as [-> Hb]. simpl. by rewrite Hc.
Qed.
End Split.

Lemma same_names_spec (f n : string) (cfg : LaunchConfig.t) :
  same_names f n cfg = true <->
  WorkspaceFolder.name (LaunchConfig.folder cfg) = f /\ LaunchConfig.name cfg = n.
Proof.
  unfold same_names. rewrite andb_true_iff, !String.eqb_eq. done.
Qed.

Lemma same_names_self (cfg : LaunchConfig.t) :
  same_names (WorkspaceFolder.name (LaunchConfig.folder cfg)) (LaunchConfig.name cfg) cfg = true.
Proof. by apply same_names_spec. Qed.

(** ** Configuration source *)

Lemma getAllConfigs_folder_app (h : Host) (acc : list LaunchConfig.t) (folder : WorkspaceFolder.t) :
  getAllConfigs_folder h acc folder = acc ++ entries_of h folder.
Proof.
  unfold getAllConfigs_folder, entries_of. rewrite foldl_push. simpl.
  by rewrite app_nil_r.
Qed.

Lemma getAllConfigs_loop (h : Host) (folders : list WorkspaceFolder.t) (acc : list LaunchConfig.t) :
  foldl (getAllConfigs_folder h) acc folders = acc ++ flat_map (entries_of h) folders.
Proof.
  revert acc. induction folders as [|folder folders IH]; intros acc; simpl.
  - by rewrite app_nil_r.
  - rewrite IH, getAllConfigs_folder_app. by rewrite <- app_assoc.
Qed.

Lemma getAllConfigs_enumerate (h : Host) : getAllConfigs h = enumerate h.
Proof.
  unfold getAllConfigs, enumerate. destruct (workspaceFolders h) as [folders|]; simpl; [|done].
  apply getAllConfigs_loop.
Qed.

(** C9. [getAllConfigs] returns, for each workspace folder in the order of
    [workspace.workspaceFolders], the folder's "configurations" followed by
    its "compounds", each in the order of its array, every configuration
    paired with its name and its folder; without folders (undefined or an
    empty array) it returns the empty array. *)
Theorem C9_enumeration_order (h : Host) :
  getAllConfigs h =
    flat_map
      (fun root =>
         map (fun c => LaunchConfig.mk (DebugConfiguration.name c) c root)
             (default [] (launch_get h (WorkspaceFolder.uri root) "configurations")
              ++ default [] (launch_get h (WorkspaceFolder.uri root) "compounds")))
      (default [] (workspaceFolders h))
  /\ getAllConfigs (mkHost None (launch_get h) (showInStatusBar h) (hideBuiltInRunButton h)) = []
  /\ getAllConfigs (mkHost (Some []) (launch_get h) (showInStatusBar h) (hideBuiltInRunButton h)) = [].
Proof.
  split; [|split; reflexivity]. apply getAllConfigs_enumerate.
Qed.

(** Every enumerated entry carries the name of its configuration. *)
Lemma enumerated_name (h : Host) (e : LaunchConfig.t) :
  In e (getAllConfigs h) ->
  LaunchConfig.name e = DebugConfiguration.name (LaunchConfig.config e).
Proof.
  rewrite getAllConfigs_enumerate. unfold enumerate. rewrite in_flat_map.
  intros (root & _ & He). unfold entries_of in He. apply in_map_iff in He.
  by destruct He as (c & <- & _).
Qed.

(** ** Configuration identity *)

(** An undefined configuration name matches no entry. *)
Lemma key_matches_undefined (f : option string) (cfg : LaunchConfig.t) :
  key_matches f None cfg = false.
Proof. unfold key_matches. simpl. apply andb_false_r. Qed.

(** The key of an entry whose names lack ':' splits into the two names. *)
Lemma split_getConfigKey (e : LaunchConfig.t) :
  lacks ":" (WorkspaceFolder.name (LaunchConfig.folder e)) = true ->
  lacks ":" (LaunchConfig.name e) = true ->
  split ":" (getConfigKey e) =
    [WorkspaceFolder.name (LaunchConfig.folder e); LaunchConfig.name e].
Proof.
  intros Hf Hn. unfold getConfigKey.
  change (":" +:+ LaunchConfig.name e) with (String ":"%char (LaunchConfig.name e)).
  rewrite split_app by done. by rewrite split_lacks.
Qed.

(** A key without ':' resolves to nothing. *)
Lemma getConfigFromKey_no_separator (h : Host) (key : string) :
  lacks ":" key = true -> getConfigFromKey h key = None.
Proof.
  intros Hkey. unfold getConfigFromKey. rewrite split_lacks by done. simpl.
  apply find_None_existsb. induction (getAllConfigs h) as [|c cs IH]; simpl; [done|].
  by rewrite key_matches_undefined.
Qed.

(** On a key with one ':' the code does what [resolve] is said to do. *)
Lemma getConfigFromKey_one_separator (h : Host) (rootName configName : string) :
  lacks ":" rootName = true -> lacks ":" configName = true ->
  getConfigFromKey h (rootName +:+ ":" +:+ configName) =
    resolve_spec h (rootName +:+ ":" +:+ configName)
  /\ getConfigFromKey h (rootName +:+ ":" +:+ configName) =
       List.find (same_names rootName configName) (getAllConfigs h).
Proof.
  intros Hr Hc.
  assert (Hcode : getConfigFromKey h (rootName +:+ ":" +:+ configName) =
                  List.find (same_names rootName configName) (getAllConfigs h)).
  { unfold getConfigFromKey.
    change (":" +:+ configName) with (String ":"%char configName).
    rewrite split_app by done. rewrite split_lacks by done. reflexivity. }
  split; [|done]. rewrite Hcode. unfold resolve_spec.
  change (":" +:+ configName) with (String ":"%char configName).
  rewrite split_first_app by done. by rewrite getAllConfigs_enumerate.
Qed.

(** Scenario A: with a configuration named Launch in each of two roots, the
    key of the second root resolves to the entry of the second root. *)
Example scenario_A :
  getConfigFromKey Examples.twoRoots "RootB:Launch"
  = Some (Examples.entry Examples.launch Examples.rootB).
Proof. reflexivity. Qed.

(** C1 (as stated, refuted). The key of an enumerated entry does not always
    resolve to that entry: with two roots of the same display name the key of
    the second root's entry resolves to the first root's entry, and the key of
    a configuration whose name contains ':' resolves to nothing. *)
Lemma C1_round_trip_counterexample :
  (In (Examples.entry Examples.launch Examples.app2) (getAllConfigs Examples.twins)
   /\ getConfigFromKey Examples.twins
        (getConfigKey (Examples.entry Examples.launch Examples.app2))
      = Some (Examples.entry Examples.launch Examples.app1)
   /\ Examples.entry Examples.launch Examples.app1
      <> Examples.entry Examples.launch Examples.app2)
  /\ (In (Examples.entry Examples.pythonFile Examples.proj) (getAllConfigs Examples.colonName)
      /\ getConfigFromKey Examples.colonName
           (getConfigKey (Examples.entry Examples.pythonFile Examples.proj))
         = None).
Proof.
  repeat split.
  - right. left. reflexivity.
  - discriminate.
  - left. reflexivity.
Qed.

(** C1 (amended). For an enumerated entry [e] whose root name and
    configuration name contain no ':', resolving the key of [e] returns the
    first enumerated entry that has the root name and the configuration name
    of [e]; that entry is [e] itself when no other enumerated entry has both
    names. *)
Theorem C1_key_round_trip (h : Host) (e : LaunchConfig.t) :
  In e (getAllConfigs h) ->
  lacks ":" (WorkspaceFolder.name (LaunchConfig.folder e)) = true ->
  lacks ":" (LaunchConfig.name e) = true ->
  (exists first before after,
      getConfigFromKey h (getConfigKey e) = Some first
      /\ getAllConfigs h = before ++ first :: after
      /\ WorkspaceFolder.name (LaunchConfig.folder first)
         = WorkspaceFolder.name (LaunchConfig.folder e)
      /\ LaunchConfig.name first = LaunchConfig.name e
      /\ forall c, In c before ->
           ~ (WorkspaceFolder.name (LaunchConfig.folder c)
              = WorkspaceFolder.name (LaunchConfig.folder e)
              /\ LaunchConfig.name c = LaunchConfig.name e))
  /\ ((forall c, In c (getAllConfigs h) ->
         WorkspaceFolder.name (LaunchConfig.folder c)
         = WorkspaceFolder.name (LaunchConfig.folder e) ->
         LaunchConfig.name c = LaunchConfig.name e -> c = e) ->
      getConfigFromKey h (getConfigKey e) = Some e).
Proof.
  intros Hin Hf Hn.
  set (p := same_names (WorkspaceFolder.name (LaunchConfig.folder e)) (LaunchConfig.name e)).
  assert (Hcode : getConfigFromKey h (getConfigKey e) = List.find p (getAllConfigs h)).
  { unfold getConfigFromKey. rewrite split_getConfigKey by done. reflexivity. }
  assert (Hsome : is_Some (List.find p (getAllConfigs h))).
  { apply find_is_Some_existsb, existsb_exists. exists e. split; [done|].
    apply same_names_self. }
  destruct Hsome as [first Hfirst]. rewrite Hcode, Hfirst.
  destruct (find_first _ _ _ Hfirst) as (before & after & Hsplit & Hp & Hbefore).
  apply same_names_spec in Hp as [Hpf Hpn].
  split.
  - exists first, before, after. repeat split; try done.
    intros c Hc Hnames. apply same_names_spec in Hnames.
    specialize (Hbefore c Hc). unfold p in Hbefore. congruence.
  - intros Hunique. f_equal. apply Hunique; [|done|done].
    rewrite Hsplit. apply in_or_app. right. by left.
Qed.

Lemma C1_key_round_trip_witness :
  getConfigFromKey Examples.oneRoot (getConfigKey (Examples.entry Examples.test Examples.rootA))
  = Some (Examples.entry Examples.test Examples.rootA).
Proof.
  apply (C1_key_round_trip Examples.oneRoot (Examples.entry Examples.test Examples.rootA)).
  - right. left. reflexivity.
  - reflexivity.
  - reflexivity.
  - intros c [<-|[<-|[<-|[]]]]; simpl; intros Hf Hn; solve [reflexivity | discriminate].
Defined.

(** C2 (the code departs from the claim). [getConfigFromKey] cuts the key at
    every ':' and keeps the first two pieces only.  For the key that
    [getConfigKey] itself builds for the configuration "Python: File" of the
    root "proj", the pieces are "proj" and "Python", so nothing is found,
    whereas cutting at the first ':' gives "proj" and "Python: File", the
    names of the enumerated entry. *)
Theorem C2_split_keeps_two_pieces :
  getConfigKey (Examples.entry Examples.pythonFile Examples.proj) = "proj:Python: File"
  /\ split ":" "proj:Python: File" = ["proj"; "Python"; " File"]
  /\ getConfigFromKey Examples.colonName "proj:Python: File" = None
  /\ split_first ":" "proj:Python: File" = Some ("proj", "Python: File")
  /\ resolve_spec Examples.colonName "proj:Python: File"
     = Some (Examples.entry Examples.pythonFile Examples.proj).
Proof. repeat split. Qed.

(** ** Invocation dispatcher *)

(** C3. For an enumerated entry, the dispatch target computed by the run and
    debug commands is the name of the entry exactly when its configuration
    has a "configurations" property and no "type" property; in every other
    case it is the configuration object. *)
Theorem C3_dispatch_target (h : Host) (e : LaunchConfig.t) :
  In e (getAllConfigs h) ->
  (configToStart e = ByName (LaunchConfig.name e) <->
   DebugConfiguration.has "configurations" (LaunchConfig.config e) = true
   /\ DebugConfiguration.has "type" (LaunchConfig.config e) = false)
  /\ (~ (DebugConfiguration.has "configurations" (LaunchConfig.config e) = true
         /\ DebugConfiguration.has "type" (LaunchConfig.config e) = false) ->
      configToStart e = ByValue (LaunchConfig.config e)).
Proof.
  intros Hin. rewrite (enumerated_name h e Hin). unfold configToStart, isCompound.
  destruct (DebugConfiguration.has "configurations" (LaunchConfig.config e));
    destruct (DebugConfiguration.has "type" (LaunchConfig.config e)); simpl;
    split; try split; try done; intros []; try done; intros H; by destruct H.
Qed.

(** Scenario D, from C3: the compound "Full Stack" is started by its name,
    the plain configuration "Launch" by its object. *)
Lemma C3_dispatch_target_witness :
  configToStart (Examples.entry Examples.fullStack Examples.rootA) = ByName "Full Stack"
  /\ configToStart (Examples.entry Examples.launch Examples.rootA) = ByValue Examples.launch.
Proof.
  split.
  - apply (C3_dispatch_target Examples.oneRoot (Examples.entry Examples.fullStack Examples.rootA)).
    + right. right. left. reflexivity.
    + split; reflexivity.
  - apply (C3_dispatch_target Examples.oneRoot (Examples.entry Examples.launch Examples.rootA)).
    + left. reflexivity.
    + intros [H _]. discriminate H.
Defined.

(** ** Selection state *)

Lemma stillExists_spec (h : Host) (sel : LaunchConfig.t) :
  stillExists h sel = true <->
  exists c, In c (getAllConfigs h)
            /\ WorkspaceFolder.name (LaunchConfig.folder c)
               = WorkspaceFolder.name (LaunchConfig.folder sel)
            /\ LaunchConfig.name c = LaunchConfig.name sel.
Proof.
  unfold stillExists. rewrite existsb_exists.
  split; intros (c & Hc & Hnames); exists c; (split; [done|]); by apply same_names_spec.
Qed.

Lemma stillExists_false (h : Host) (sel : LaunchConfig.t) :
  (forall c, In c (getAllConfigs h) ->
     ~ (WorkspaceFolder.name (LaunchConfig.folder c)
        = WorkspaceFolder.name (LaunchConfig.folder sel)
        /\ LaunchConfig.name c = LaunchConfig.name sel)) ->
  stillExists h sel = false.
Proof.
  intros Hnone. apply not_true_is_false. intros Hex.
  apply stillExists_spec in Hex as (c & Hc & Hnames). by apply (Hnone c).
Qed.

Lemma stillExists_enumerated (h : Host) (c : LaunchConfig.t) :
  In c (getAllConfigs h) -> stillExists h c = true.
Proof. intros Hc. apply stillExists_spec. by exists c. Qed.

Lemma reconcile_kept (h : Host) (sel : LaunchConfig.t) :
  stillExists h sel = true -> reconcile h (Some sel) = Some sel.
Proof. intros H. unfold reconcile. by rewrite H. Qed.

Lemma reconcile_repaired (h : Host) (sel : LaunchConfig.t) :
  stillExists h sel = false -> reconcile h (Some sel) = head (getAllConfigs h).
Proof. intros H. unfold reconcile. rewrite H. simpl. apply first_or_undefined. Qed.

Lemma current_head (h : Host) : current h (head (getAllConfigs h)).
Proof.
  intros sel Hsel. apply stillExists_enumerated.
  destruct (getAllConfigs h) as [|c cs]; [done|]. injection Hsel as <-. by left.
Qed.

Lemma reconcile_current (h : Host) (selected : option LaunchConfig.t) :
  current h (reconcile h selected).
Proof.
  destruct selected as [sel|]; [|by intros ?].
  destruct (stillExists h sel) eqn:Hex.
  - rewrite reconcile_kept by done. by intros ? [= <-].
  - rewrite reconcile_repaired by done. apply current_head.
Qed.

Lemma reconcile_of_current (h : Host) (selected : option LaunchConfig.t) :
  current h selected -> reconcile h selected = selected.
Proof.
  destruct selected as [sel|]; [|done]. intros Hcur. apply reconcile_kept. by apply Hcur.
Qed.

Lemma reconcile_idempotent (h : Host) (selected : option LaunchConfig.t) :
  reconcile h (reconcile h selected) = reconcile h selected.
Proof. apply reconcile_of_current, reconcile_current. Qed.

(** What [updateStatusBar] does to each part of the state. *)
Lemma updateStatusBar_selectedConfig (h : Host) (st : State) :
  selectedConfig (updateStatusBar h st) =
  match configButton st with
  | Some _ => reconcile h (selectedConfig st)
  | None => selectedConfig st
  end.
Proof.
  unfold updateStatusBar. destruct (configButton st); [|done].
  simpl. by destruct (reconcile h (selectedConfig st)).
Qed.

Lemma updateStatusBar_lastConfigKey (h : Host) (st : State) :
  lastConfigKey (updateStatusBar h st) = lastConfigKey st.
Proof.
  unfold updateStatusBar. destruct (configButton st); [|done].
  simpl. by destruct (reconcile h (selectedConfig st)).
Qed.

Lemma updateStatusBar_effects (h : Host) (st : State) :
  effects (updateStatusBar h st) = effects st.
Proof.
  unfold updateStatusBar. destruct (configButton st); [|done].
  simpl. by destruct (reconcile h (selectedConfig st)).
Qed.

Lemma updateStatusBar_configButton (h : Host) (st : State) :
  is_Some (configButton (updateStatusBar h st)) <-> is_Some (configButton st).
Proof.
  unfold updateStatusBar. destruct (configButton st) as [b|] eqn:Hb; [|by rewrite Hb].
  simpl. destruct (reconcile h (selectedConfig st)); simpl; split; eauto.
Qed.


(** C4. When [updateStatusBar] validates the selection (the config button
    exists): a selection whose root name and configuration name match no
    enumerated entry is replaced by the first enumerated entry, or by
    undefined when nothing is enumerated; and with nothing enumerated the
    selection is undefined afterwards whatever it was before. *)
Theorem C4_reconcile_repair (h : Host) (st : State) (button : StatusBarItem) :
  configButton st = Some button ->
  (forall sel,
      selectedConfig st = Some sel ->
      (forall c, In c (getAllConfigs h) ->
         ~ (WorkspaceFolder.name (LaunchConfig.folder c)
            = WorkspaceFolder.name (LaunchConfig.folder sel)
            /\ LaunchConfig.name c = LaunchConfig.name sel)) ->
      selectedConfig (updateStatusBar h st) =
        match getAllConfigs h with
        | [] => None
        | first :: _ => Some first
        end)
  /\ (getAllConfigs h = [] -> selectedConfig (updateStatusBar h st) = None).
Proof.
  intros Hbutton. rewrite updateStatusBar_selectedConfig, Hbutton. split.
  - intros sel -> Hnone. rewrite reconcile_repaired by (by apply stillExists_false).
    by destruct (getAllConfigs h).
  - intros Hempty. destruct (selectedConfig st) as [sel|]; [|done].
    rewrite reconcile_repaired; [by rewrite Hempty|].
    apply stillExists_false. rewrite Hempty. by intros ? [].
Qed.

(** Scenarios C and E, from C4: after Launch is deleted the selection becomes
    Test; after all roots are removed it becomes undefined. *)
Lemma C4_reconcile_repair_witness :
  selectedConfig Examples.launchSelected = Some (Examples.entry Examples.launch Examples.rootA)
  /\ selectedConfig (updateStatusBar Examples.onlyTest Examples.launchSelected)
     = Some (Examples.entry Examples.test Examples.rootA)
  /\ selectedConfig (updateStatusBar Examples.noRoots Examples.launchSelected) = None.
Proof.
  split; [reflexivity|]. split.
  - eapply (C4_reconcile_repair Examples.onlyTest Examples.launchSelected).
    + reflexivity.
    + reflexivity.
    + intros c [<-|[]] [_ Hname]. discriminate Hname.
  - eapply (C4_reconcile_repair Examples.noRoots Examples.launchSelected); reflexivity.
Defined.

(** Scenario E: once all roots are removed the config button shows the
    text for no configuration. *)
Example scenario_E :
  text <$> configButton (updateStatusBar Examples.noRoots Examples.launchSelected)
  = Some "$(debug-configure) No Config".
Proof. reflexivity. Qed.

Lemma updateStatusBarVisibility_selectedConfig (h : Host) (st : State) :
  selectedConfig (updateStatusBarVisibility h st) =
  if default true (showInStatusBar h)
  then reconcile h (selectedConfig st)
  else selectedConfig st.
Proof.
  unfold updateStatusBarVisibility. destruct (default true (showInStatusBar h)); [|done].
  rewrite updateStatusBar_selectedConfig.
  destruct st as [sel [cb|] [rb|] [db|] key eff]; reflexivity.
Qed.

Lemma updateStatusBarVisibility_lastConfigKey (h : Host) (st : State) :
  lastConfigKey (updateStatusBarVisibility h st) = lastConfigKey st.
Proof.
  unfold updateStatusBarVisibility. destruct (default true (showInStatusBar h)); [|done].
  rewrite updateStatusBar_lastConfigKey.
  destruct st as [sel [cb|] [rb|] [db|] key eff]; reflexivity.
Qed.

Lemma applyBuiltInButtonVisibility_selectedConfig (h : Host) (st : State) :
  selectedConfig (applyBuiltInButtonVisibility h st) = selectedConfig st.
Proof. unfold applyBuiltInButtonVisibility. by destruct (default false _). Qed.


(** ** Startup *)

(** A successful [find] returns an enumerated entry. *)
Lemma getConfigFromKey_enumerated (h : Host) (key : string) (e : LaunchConfig.t) :
  getConfigFromKey h key = Some e -> In e (getAllConfigs h).
Proof. unfold getConfigFromKey. intros Hfind. by apply find_some in Hfind as [? _]. Qed.

Lemma restoreSelection_selectedConfig (h : Host) (persisted : option string) :
  selectedConfig (restoreSelection h (loaded persisted)) =
  match persisted ≫= getConfigFromKey h with
  | Some e => Some e
  | None => head (getAllConfigs h)
  end.
Proof.
  unfold restoreSelection. destruct persisted as [key|]; simpl.
  - unfold truthy. destruct (String.eqb key "") eqn:Hkey; simpl.
    + apply String.eqb_eq in Hkey as ->.
      rewrite getConfigFromKey_no_separator by done.
      by destruct (getAllConfigs h).
    + destruct (getConfigFromKey h key); simpl; [done|]. by destruct (getAllConfigs h).
  - by destruct (getAllConfigs h).
Qed.

Lemma restoreSelection_current (h : Host) (persisted : option string) :
  current h (selectedConfig (restoreSelection h (loaded persisted))).
Proof.
  rewrite restoreSelection_selectedConfig.
  destruct (persisted ≫= getConfigFromKey h) as [e|] eqn:He; [|apply current_head].
  intros ? [= <-]. apply stillExists_enumerated.
  destruct persisted as [key|]; [|done]. by apply (getConfigFromKey_enumerated h key).
Qed.


Lemma activate_selectedConfig (h : Host) (persisted : option string) :
  selectedConfig (activate h (loaded persisted)) =
  selectedConfig (restoreSelection h (loaded persisted)).
Proof.
  unfold activate.
  rewrite applyBuiltInButtonVisibility_selectedConfig, updateStatusBarVisibility_selectedConfig.
  destruct (default true (showInStatusBar h)); [|done].
  apply reconcile_of_current, restoreSelection_current.
Qed.

(** C5. At startup the selection is the entry that the persisted key
    resolves to, when there is a key and it resolves; otherwise it is the
    first enumerated entry, or undefined when nothing is enumerated.  This
    holds for the head of [activate] and for [activate] as a whole. *)
Theorem C5_startup_selection (h : Host) (persisted : option string) :
  let initialSelection :=
    match persisted with
    | Some key =>
        match getConfigFromKey h key with
        | Some e => Some e
        | None => match getAllConfigs h with [] => None | first :: _ => Some first end
        end
    | None => match getAllConfigs h with [] => None | first :: _ => Some first end
    end in
  selectedConfig (restoreSelection h (loaded persisted)) = initialSelection
  /\ selectedConfig (activate h (loaded persisted)) = initialSelection.
Proof.
  simpl. rewrite activate_selectedConfig, restoreSelection_selectedConfig.
  destruct persisted as [key|]; simpl.
  - destruct (getConfigFromKey h key); [done|]. by destruct (getAllConfigs h).
  - by destruct (getAllConfigs h).
Qed.

(** Scenario B: without a persisted key, the first of Launch and Test. *)
Example scenario_B :
  selectedConfig (activate Examples.oneRoot (loaded None))
  = Some (Examples.entry Examples.launch Examples.rootA).
Proof. reflexivity. Qed.

(** ** Idempotence and retention *)

(** C8. Running [updateStatusBar] twice against the same host leaves the
    state, and so the selection, as one run leaves it; the same holds for the
    validation block alone. *)
Theorem C8_reconcile_idempotent (h : Host) (st : State) :
  selectedConfig (updateStatusBar h (updateStatusBar h st))
  = selectedConfig (updateStatusBar h st)
  /\ updateStatusBar h (updateStatusBar h st) = updateStatusBar h st
  /\ reconcile h (reconcile h (selectedConfig st)) = reconcile h (selectedConfig st).
Proof.
  assert (Hstate : updateStatusBar h (updateStatusBar h st) = updateStatusBar h st).
  { destruct st as [selected [button|] rb db key eff]; [|reflexivity].
    pose proof (reconcile_idempotent h selected) as Hidem.
    unfold updateStatusBar; cbn -[reconcile].
    destruct (reconcile h selected) as [sel|] eqn:Hsel; cbn -[reconcile].
    - rewrite Hidem. reflexivity.
    - reflexivity. }
  split; [by rewrite Hstate|]. split; [done|apply reconcile_idempotent].
Qed.

Lemma call_effects (e : Effect) (st : State) : effects (call e st) = effects st ++ [e].
Proof. reflexivity. Qed.

(** C10. When an enumerated entry has the root name and the configuration
    name of the selection, [updateStatusBar] (with or without a config
    button) keeps the selection as it is held, with the configuration it was selected with, whatever the
    configuration of the enumerated entry is now; the run and debug commands
    that follow dispatch from the held entry. *)
Theorem C10_stale_payload_retained
    (h : Host) (st : State) (sel fresh : LaunchConfig.t) (ui : UserInput) :
  selectedConfig st = Some sel ->
  In fresh (getAllConfigs h) ->
  WorkspaceFolder.name (LaunchConfig.folder fresh) = WorkspaceFolder.name (LaunchConfig.folder sel) ->
  LaunchConfig.name fresh = LaunchConfig.name sel ->
  selectedConfig (updateStatusBar h st) = Some sel
  /\ effects (runSelectedCommand h ui (updateStatusBar h st))
     = effects st ++ [StartDebugging (LaunchConfig.folder sel) (configToStart sel) true]
  /\ effects (debugSelectedCommand h ui (updateStatusBar h st))
     = effects st ++ [StartDebugging (LaunchConfig.folder sel) (configToStart sel) false].
Proof.
  intros Hsel Hfresh Hfolder Hname.
  assert (Hkept : selectedConfig (updateStatusBar h st) = Some sel).
  { rewrite updateStatusBar_selectedConfig, Hsel. destruct (configButton st); [|done].
    apply reconcile_kept. apply stillExists_spec. by exists fresh. }
  split; [done|].
  unfold runSelectedCommand, debugSelectedCommand. rewrite Hkept. cbv zeta. rewrite Hkept.
  by rewrite !call_effects, updateStatusBar_effects.
Qed.

(** After the type of Launch is edited from node to python, the selection
    made before the edit is kept and dispatched with the type node. *)
Lemma C10_stale_payload_retained_witness :
  getAllConfigs Examples.edited !! 0%nat
    = Some (Examples.entry Examples.launchEdited Examples.rootA)
  /\ Examples.launchEdited <> Examples.launch
  /\ selectedConfig (updateStatusBar Examples.edited Examples.launchSelected)
     = Some (Examples.entry Examples.launch Examples.rootA)
  /\ effects (runSelectedCommand Examples.edited Examples.noAnswer
                (updateStatusBar Examples.edited Examples.launchSelected))
     = [StartDebugging Examples.rootA (ByValue Examples.launch) true].
Proof.
  split; [reflexivity|]. split; [discriminate|].
  destruct (C10_stale_payload_retained
              Examples.edited Examples.launchSelected
              (Examples.entry Examples.launch Examples.rootA)
              (Examples.entry Examples.launchEdited Examples.rootA) Examples.noAnswer)
    as (Hkept & Hrun & _).
  - reflexivity.
  - left. reflexivity.
  - reflexivity.
  - reflexivity.
  - split; [exact Hkept|exact Hrun].
Defined.

(** ** The select command *)

Lemma lookup_map {A B : Type} (f : A -> B) (xs : list A) (i : nat) :
  map f xs !! i = f <$> xs !! i.
Proof.
  revert i. induction xs as [|x xs IH]; intros [|i]; simpl; done.
Qed.

Lemma lookup_In {A : Type} (xs : list A) (i : nat) (x : A) : xs !! i = Some x -> In x xs.
Proof.
  revert i. induction xs as [|y xs IH]; intros [|i]; simpl; try done.
  - intros [= ->]. by left.
  - intros H. right. by apply (IH i).
Qed.

(** A picked entry becomes the selection and its key is stored. *)
Lemma selectConfig_picked (h : Host) (ui : UserInput) (st : State) (c : LaunchConfig.t) :
  chosen h ui = Some c ->
  In c (getAllConfigs h)
  /\ selectedConfig (selectConfig h ui st) = Some c
  /\ lastConfigKey (selectConfig h ui st) = Some (getConfigKey c)
  /\ effects (selectConfig h ui st) = effects st
  /\ (is_Some (configButton (selectConfig h ui st)) <-> is_Some (configButton st)).
Proof.
  unfold chosen. destruct (pick ui) as [i|] eqn:Hpick; [|done]. simpl. intros Hi.
  pose proof (lookup_In _ _ _ Hi) as Hin. split; [done|].
  unfold selectConfig. rewrite Hpick. simpl. rewrite lookup_map, Hi. simpl.
  rewrite bool_decide_eq_false_2 by (by destruct (getAllConfigs h)).
  rewrite updateStatusBar_selectedConfig, updateStatusBar_lastConfigKey,
    updateStatusBar_effects, updateStatusBar_configButton. simpl.
  repeat split; try done.
  destruct (configButton st); [|done]. apply reconcile_kept. by apply stillExists_enumerated.
Qed.

(** Without a picked entry nothing but the log of calls changes, and no
    session is started. *)
Lemma selectConfig_not_picked (h : Host) (ui : UserInput) (st : State) :
  chosen h ui = None ->
  selectedConfig (selectConfig h ui st) = selectedConfig st
  /\ lastConfigKey (selectConfig h ui st) = lastConfigKey st
  /\ configButton (selectConfig h ui st) = configButton st
  /\ forall f t nd,
       In (StartDebugging f t nd) (effects (selectConfig h ui st)) ->
       In (StartDebugging f t nd) (effects st).
Proof.
  unfold chosen, selectConfig. intros Hnone.
  destruct (bool_decide (length (getAllConfigs h) = 0%nat)).
  - destruct (create_configuration ui); simpl; repeat split; try done;
      intros f t nd Hin; unfold push in Hin;
      repeat (apply in_app_or in Hin as [Hin|[Hin|[]]]; try discriminate Hin); done.
  - destruct (pick ui) as [i|]; simpl in *; [|done].
    rewrite lookup_map, Hnone. done.
Qed.



(** ** Persisted key *)




(** ** Validation through a session *)














(** With the config button in place, a change of a launch section is
    followed by a validation against the new sections. *)
Lemma launch_changed_reconciles (h : Host) (st : State) (change : ConfigurationChange) :
  is_Some (configButton st) ->
  is_Some (launch_change change) ->
  selectedConfig (step (h, st) (DidChangeConfiguration change)).2
  = reconcile (apply_change change h) (selectedConfig st).
Proof.
  intros [button Hbutton] Hlaunch. simpl. unfold onDidChangeConfiguration.
  set (h' := apply_change change h).
  rewrite (bool_decide_eq_true_2 _ Hlaunch).
  assert (H1 : selectedConfig (updateStatusBar h' st) = reconcile h' (selectedConfig st))
    by (by rewrite updateStatusBar_selectedConfig, Hbutton).
  assert (H2 : selectedConfig
                 (if bool_decide (is_Some (showInStatusBar_change change))
                  then updateStatusBarVisibility h' (updateStatusBar h' st)
                  else updateStatusBar h' st)
               = reconcile h' (selectedConfig st)).
  { destruct (bool_decide _); [|done]. rewrite updateStatusBarVisibility_selectedConfig, H1.
    destruct (default true _); [apply reconcile_idempotent|done]. }
  cbv zeta. destruct (bool_decide (is_Some (hideBuiltInRunButton_change change))); [|done].
  by destruct (reload_window change).
Qed.




(** * Further properties of the code *)

(** ** Enumeration *)

(** X1. An entry is enumerated exactly when it pairs a workspace folder with
    one of the "configurations" or "compounds" of that folder, under the name
    of the configuration. *)
Theorem X1_enumeration_membership (h : Host) (e : LaunchConfig.t) :
  In e (getAllConfigs h) <->
  exists folders root c,
    workspaceFolders h = Some folders
    /\ In root folders
    /\ (In c (default [] (launch_get h (WorkspaceFolder.uri root) "configurations"))
        \/ In c (default [] (launch_get h (WorkspaceFolder.uri root) "compounds")))
    /\ e = LaunchConfig.mk (DebugConfiguration.name c) c root.
Proof.
  rewrite getAllConfigs_enumerate. unfold enumerate. rewrite in_flat_map. split.
  - intros (root & Hroot & He). unfold entries_of in He.
    apply in_map_iff in He as (c & <- & Hc). apply in_app_or in Hc.
    destruct (workspaceFolders h) as [folders|]; [|done].
    exists folders, root, c. done.
  - intros (folders & root & c & Hfolders & Hroot & Hc & ->).
    exists root. rewrite Hfolders. split; [done|]. unfold entries_of.
    apply in_map_iff. exists c. split; [done|]. by apply in_or_app.
Qed.

Lemma getAllConfigs_folders (launch : string -> string -> option (list DebugConfiguration.t))
    (s1 s2 : option bool) (folders : list WorkspaceFolder.t) :
  getAllConfigs (mkHost (Some folders) launch s1 s2)
  = flat_map (entries_of (mkHost None launch s1 s2)) folders.
Proof. by rewrite getAllConfigs_enumerate. Qed.

(** X2. The enumeration of a list of folders is the enumeration of its first
    part followed by that of its second part, and a folder whose launch
    section has no configurations and no compounds (absent or empty arrays)
    adds nothing wherever it stands. *)
Theorem X2_enumeration_by_folder
    (launch : string -> string -> option (list DebugConfiguration.t))
    (s1 s2 : option bool) (before after : list WorkspaceFolder.t) :
  getAllConfigs (mkHost (Some (before ++ after)) launch s1 s2)
  = getAllConfigs (mkHost (Some before) launch s1 s2)
    ++ getAllConfigs (mkHost (Some after) launch s1 s2)
  /\ forall root,
       default [] (launch (WorkspaceFolder.uri root) "configurations") = [] ->
       default [] (launch (WorkspaceFolder.uri root) "compounds") = [] ->
       getAllConfigs (mkHost (Some (before ++ root :: after)) launch s1 s2)
       = getAllConfigs (mkHost (Some (before ++ after)) launch s1 s2).
Proof.
  rewrite !getAllConfigs_folders. split; [apply flat_map_app|].
  intros root Hplain Hcompounds. rewrite !getAllConfigs_folders, !flat_map_app. simpl.
  unfold entries_of at 2. simpl. by rewrite Hplain, Hcompounds.
Qed.

Lemma X2_enumeration_by_folder_witness :
  getAllConfigs Workspaces.withBare = getAllConfigs Examples.oneRoot.
Proof.
  etransitivity; [|reflexivity].
  exact (proj2 (X2_enumeration_by_folder (launch_get Workspaces.withBare) None None
                  [Examples.rootA] []) Workspaces.bare eq_refl eq_refl).
Defined.

(** ** Keys *)

Lemma append_separator_inj (sep : Ascii.ascii) (a a' b b' : string) :
  lacks sep a = true -> lacks sep a' = true ->
  a +:+ String sep b = a' +:+ String sep b' -> a = a' /\ b = b'.
Proof.
  intros Ha Ha' Heq.
  pose proof (split_first_app sep a b Ha) as H1. rewrite Heq in H1.
  rewrite (split_first_app sep a' b' Ha') in H1. by injection H1 as -> ->.
Qed.

(** X3. Two entries whose root names contain no ':' have the same key only
    if they have the same root name and the same configuration name. *)
Theorem X3_key_determines_names (e1 e2 : LaunchConfig.t) :
  lacks ":" (WorkspaceFolder.name (LaunchConfig.folder e1)) = true ->
  lacks ":" (WorkspaceFolder.name (LaunchConfig.folder e2)) = true ->
  getConfigKey e1 = getConfigKey e2 ->
  WorkspaceFolder.name (LaunchConfig.folder e1) = WorkspaceFolder.name (LaunchConfig.folder e2)
  /\ LaunchConfig.name e1 = LaunchConfig.name e2.
Proof.
  intros H1 H2. unfold getConfigKey.
  change (":" +:+ LaunchConfig.name e1) with (String ":"%char (LaunchConfig.name e1)).
  change (":" +:+ LaunchConfig.name e2) with (String ":"%char (LaunchConfig.name e2)).
  by apply append_separator_inj.
Qed.

Lemma X3_key_determines_names_witness :
  WorkspaceFolder.name Examples.app1 = WorkspaceFolder.name Examples.app2
  /\ DebugConfiguration.name Examples.launch = DebugConfiguration.name Examples.launch.
Proof.
  apply (X3_key_determines_names (Examples.entry Examples.launch Examples.app1)
           (Examples.entry Examples.launch Examples.app2)); reflexivity.
Defined.

(** X4. Whatever the key, an entry that [getConfigFromKey] returns is
    enumerated, its root name is the first piece of the key and its
    configuration name the second, and no entry enumerated before it has both
    names. *)
Theorem X4_resolve_sound (h : Host) (key : string) (e : LaunchConfig.t) :
  getConfigFromKey h key = Some e ->
  split ":" key !! 0%nat = Some (WorkspaceFolder.name (LaunchConfig.folder e))
  /\ split ":" key !! 1%nat = Some (LaunchConfig.name e)
  /\ exists before after,
       getAllConfigs h = before ++ e :: after
       /\ forall c, In c before ->
            ~ (WorkspaceFolder.name (LaunchConfig.folder c)
               = WorkspaceFolder.name (LaunchConfig.folder e)
               /\ LaunchConfig.name c = LaunchConfig.name e).
Proof.
  unfold getConfigFromKey. intros Hfind.
  destruct (find_first _ _ _ Hfind) as (before & after & Hsplit & Hp & Hbefore).
  unfold key_matches in Hp. apply andb_true_iff in Hp as [Hf Hn].
  destruct (split ":" key !! 0%nat) as [f|]; [|done].
  destruct (split ":" key !! 1%nat) as [n|]; [|done].
  simpl in Hf, Hn. apply String.eqb_eq in Hf as <-. apply String.eqb_eq in Hn as <-.
  repeat split. exists before, after. split; [done|].
  intros c Hc [Hcf Hcn]. specialize (Hbefore c Hc). unfold key_matches in Hbefore.
  simpl in Hbefore. rewrite Hcf, Hcn, !String.eqb_refl in Hbefore. done.
Qed.

Lemma X4_resolve_sound_witness :
  split ":" "RootB:Launch" !! 0%nat = Some "RootB"
  /\ split ":" "RootB:Launch" !! 1%nat = Some "Launch"
  /\ exists before after,
       getAllConfigs Examples.twoRoots
       = before ++ Examples.entry Examples.launch Examples.rootB :: after
       /\ forall c, In c before ->
            ~ (WorkspaceFolder.name (LaunchConfig.folder c) = "RootB"
               /\ LaunchConfig.name c = "Launch").
Proof.
  apply (X4_resolve_sound Examples.twoRoots "RootB:Launch"
           (Examples.entry Examples.launch Examples.rootB)).
  reflexivity.
Defined.

(** X5. Only the first two pieces of a key count: when the text before the
    first ':' and the text between the first and the second ':' are given,
    whatever follows a second ':' does not change what the key resolves to. *)
Theorem X5_resolve_ignores_rest (h : Host) (rootName configName rest : string) :
  lacks ":" rootName = true ->
  lacks ":" configName = true ->
  getConfigFromKey h (rootName +:+ ":" +:+ configName +:+ ":" +:+ rest)
  = getConfigFromKey h (rootName +:+ ":" +:+ configName).
Proof.
  intros Hr Hc. unfold getConfigFromKey.
  change (":" +:+ configName +:+ ":" +:+ rest)
    with (String ":"%char (configName +:+ String ":"%char rest)).
  change (":" +:+ configName) with (String ":"%char configName).
  rewrite !split_app by done. rewrite (split_lacks _ configName) by done. reflexivity.
Qed.

Lemma X5_resolve_ignores_rest_witness :
  getConfigFromKey Examples.oneRoot "RootA:Test:anything"
  = Some (Examples.entry Examples.test Examples.rootA).
Proof.
  etransitivity; [|reflexivity].
  exact (X5_resolve_ignores_rest Examples.oneRoot "RootA" "Test" "anything" eq_refl eq_refl).
Defined.

(** ** The select, run and debug commands *)

(** X6. When nothing is enumerated the select command only informs: the
    selection, the stored key and the buttons stay as they are, the message
    "No debug configurations found." is shown, and the command that opens the
    launch settings is executed exactly when the user presses the button of
    the message. *)
Theorem X6_select_without_configurations (h : Host) (ui : UserInput) (st : State) :
  getAllConfigs h = [] ->
  selectedConfig (selectConfig h ui st) = selectedConfig st
  /\ lastConfigKey (selectConfig h ui st) = lastConfigKey st
  /\ configButton (selectConfig h ui st) = configButton st
  /\ effects (selectConfig h ui st)
     = effects st
       ++ ShowInformationMessage "No debug configurations found."
          :: (if create_configuration ui
              then [ExecuteCommand "workbench.action.debug.configure"]
              else []).
Proof.
  intros Hempty. unfold selectConfig. rewrite Hempty. simpl.
  destruct (create_configuration ui); simpl; repeat split; unfold push;
    by rewrite <- ?app_assoc.
Qed.

Lemma X6_select_without_configurations_witness :
  effects (selectConfig Examples.noRoots Workspaces.create Workspaces.nothingSelected)
  = [ShowInformationMessage "No debug configurations found.";
     ExecuteCommand "workbench.action.debug.configure"].
Proof.
  apply (X6_select_without_configurations Examples.noRoots Workspaces.create
           Workspaces.nothingSelected).
  reflexivity.
Defined.

(** X7. When something is enumerated and the user dismisses the quick pick
    (or no item is returned), the select command changes nothing at all: no
    selection, no stored key, no text, no call. *)
Theorem X7_select_dismissed (h : Host) (ui : UserInput) (st : State) :
  getAllConfigs h <> [] ->
  chosen h ui = None ->
  selectConfig h ui st = st.
Proof.
  intros Hsome Hnone. unfold selectConfig, chosen in *.
  rewrite bool_decide_eq_false_2 by (by destruct (getAllConfigs h)).
  destruct (pick ui) as [i|]; simpl in *; [|done]. by rewrite lookup_map, Hnone.
Qed.

Lemma X7_select_dismissed_witness :
  selectConfig Examples.oneRoot Examples.noAnswer Examples.launchSelected
  = Examples.launchSelected
  /\ selectConfig Examples.oneRoot Workspaces.pickNinth Examples.launchSelected
     = Examples.launchSelected.
Proof.
  split.
  - apply (X7_select_dismissed Examples.oneRoot Examples.noAnswer); [discriminate|reflexivity].
  - apply (X7_select_dismissed Examples.oneRoot Workspaces.pickNinth); [discriminate|reflexivity].
Defined.

Lemma dispatches_app (log log' : list Effect) :
  dispatches (log ++ log') = dispatches log + dispatches log'.
Proof. unfold dispatches. by rewrite filter_app, length_app. Qed.

Lemma dispatches_push (log : list Effect) (e : Effect) :
  dispatches (push log e) = dispatches log + (if is_start e then 1 else 0).
Proof.
  unfold push. rewrite dispatches_app. f_equal. unfold dispatches.
  rewrite filter_cons, filter_nil. destruct (is_start e); by case_decide.
Qed.

Lemma selectConfig_dispatches (h : Host) (ui : UserInput) (st : State) :
  dispatches (effects (selectConfig h ui st)) = dispatches (effects st).
Proof.
  destruct (chosen h ui) as [c|] eqn:Hc.
  - by destruct (selectConfig_picked h ui st c Hc) as (_ & _ & _ & -> & _).
  - unfold selectConfig. unfold chosen in Hc.
    destruct (bool_decide (length (getAllConfigs h) = 0%nat)).
    + destruct (create_configuration ui); simpl; rewrite !dispatches_push; simpl; lia.
    + destruct (pick ui) as [i|]; simpl in *; [|done]. by rewrite lookup_map, Hc.
Qed.

(** The state in which the run and debug commands decide whether to start. *)
Lemma start_cases (h : Host) (ui : UserInput) (st : State) :
  exists st1,
    dispatches (effects st1) = dispatches (effects st)
    /\ (forall sel, selectedConfig st1 = Some sel -> effects st1 = effects st)
    /\ (forall sel, selectedConfig st = Some sel -> st1 = st)
    /\ runSelectedCommand h ui st
       = match selectedConfig st1 with
         | None => st1
         | Some sel =>
             call (StartDebugging (LaunchConfig.folder sel) (configToStart sel) true) st1
         end
    /\ debugSelectedCommand h ui st
       = match selectedConfig st1 with
         | None => st1
         | Some sel =>
             call (StartDebugging (LaunchConfig.folder sel) (configToStart sel) false) st1
         end.
Proof.
  exists (match selectedConfig st with Some _ => st | None => selectConfig h ui st end).
  destruct (selectedConfig st) as [held|] eqn:Hheld.
  - split; [done|]. split; [done|]. split; [done|].
    unfold runSelectedCommand, debugSelectedCommand. rewrite Hheld. cbv zeta.
    by rewrite Hheld.
  - split; [apply selectConfig_dispatches|]. split; [|split; [done|]].
    + intros sel Hsel. destruct (chosen h ui) as [c|] eqn:Hc.
      * by destruct (selectConfig_picked h ui st c Hc) as (_ & _ & _ & -> & _).
      * destruct (selectConfig_not_picked h ui st Hc) as (Hsame & _). congruence.
    + unfold runSelectedCommand, debugSelectedCommand. by rewrite Hheld.
Qed.

(** X8. The run and debug commands start at most one session, and only for
    the selection they end with: when they end with a selection, exactly one
    call of [startDebugging] is appended to the calls made before, for the
    folder and the dispatch target of that selection, with [noDebug] set by
    the run command and not by the debug command; when they end without a
    selection, no session is started.  A selection held before the command
    is the one it ends with. *)
Theorem X8_start_once_for_the_selection (h : Host) (ui : UserInput) (st : State) :
  (forall sel,
      selectedConfig (runSelectedCommand h ui st) = Some sel ->
      effects (runSelectedCommand h ui st)
      = effects st ++ [StartDebugging (LaunchConfig.folder sel) (configToStart sel) true])
  /\ (forall sel,
        selectedConfig (debugSelectedCommand h ui st) = Some sel ->
        effects (debugSelectedCommand h ui st)
        = effects st ++ [StartDebugging (LaunchConfig.folder sel) (configToStart sel) false])
  /\ (selectedConfig (runSelectedCommand h ui st) = None ->
      dispatches (effects (runSelectedCommand h ui st)) = dispatches (effects st))
  /\ (selectedConfig (debugSelectedCommand h ui st) = None ->
      dispatches (effects (debugSelectedCommand h ui st)) = dispatches (effects st))
  /\ (forall held,
        selectedConfig st = Some held ->
        selectedConfig (runSelectedCommand h ui st) = Some held
        /\ selectedConfig (debugSelectedCommand h ui st) = Some held).
Proof.
  destruct (start_cases h ui st) as (st1 & Hcount & Hlog & Hheld & -> & ->).
  destruct (selectedConfig st1) as [sel|] eqn:Hsel.
  - split; [|split; [|split; [|split]]].
    + intros s0 Hs0. change (selectedConfig st1 = Some s0) in Hs0.
      rewrite Hsel in Hs0. injection Hs0 as <-. by rewrite call_effects, (Hlog sel eq_refl).
    + intros s0 Hs0. change (selectedConfig st1 = Some s0) in Hs0.
      rewrite Hsel in Hs0. injection Hs0 as <-. by rewrite call_effects, (Hlog sel eq_refl).
    + intros Hnone. change (selectedConfig st1 = None) in Hnone. congruence.
    + intros Hnone. change (selectedConfig st1 = None) in Hnone. congruence.
    + intros held Hst. specialize (Hheld held Hst). subst st1.
      split; change (selectedConfig st = Some held); done.
  - split; [|split; [|split; [|split]]].
    + intros s0 Hs0. congruence.
    + intros s0 Hs0. congruence.
    + intros _. exact Hcount.
    + intros _. exact Hcount.
    + intros held Hst. specialize (Hheld held Hst). subst st1. congruence.
Qed.

Lemma X8_start_once_for_the_selection_witness :
  effects (runSelectedCommand Examples.oneRoot Examples.pickSecond
             (activate Examples.oneRoot (loaded None)))
  = [StartDebugging Examples.rootA (ByValue Examples.launch) true]
  /\ effects (debugSelectedCommand Examples.noRoots Workspaces.create Workspaces.nothingSelected)
     = [ShowInformationMessage "No debug configurations found.";
        ExecuteCommand "workbench.action.debug.configure"]
  /\ dispatches
       (effects (debugSelectedCommand Examples.noRoots Workspaces.create
                   Workspaces.nothingSelected)) = 0%nat.
Proof.
  destruct (X8_start_once_for_the_selection Examples.oneRoot Examples.pickSecond
              (activate Examples.oneRoot (loaded None))) as (Hrun & _).
  destruct (X8_start_once_for_the_selection Examples.noRoots Workspaces.create
              Workspaces.nothingSelected) as (_ & _ & _ & Hdebug & _).
  split; [|split].
  - exact (Hrun (Examples.entry Examples.launch Examples.rootA) eq_refl).
  - reflexivity.
  - exact (Hdebug eq_refl).
Defined.

(** ** The status bar through a session *)

Lemma updateStatusBar_buttons (h : Host) (st : State) :
  configButton (updateStatusBar h st)
  = with_text (label_of (reconcile h (selectedConfig st))) <$> configButton st
  /\ runButton (updateStatusBar h st) = runButton st
  /\ debugButton (updateStatusBar h st) = debugButton st.
Proof.
  unfold updateStatusBar. destruct (configButton st) as [button|] eqn:Hbutton.
  - cbn -[reconcile]. by destruct (reconcile h (selectedConfig st)).
  - by rewrite Hbutton.
Qed.

Lemma alike_refl (b : option StatusBarItem) : alike b b.
Proof. by destruct b. Qed.

Lemma alike_with_text (t : string) (b : option StatusBarItem) : alike b (with_text t <$> b).
Proof. by destruct b. Qed.

Lemma alike_trans (b1 b2 b3 : option StatusBarItem) :
  alike b1 b2 -> alike b2 b3 -> alike b1 b3.
Proof.
  destruct b1, b2, b3; simpl; try done.
  intros (-> & -> & ->) (-> & -> & ->). done.
Qed.

Lemma same_wiring_refl (st : State) : same_wiring st st.
Proof. repeat split; apply alike_refl. Qed.

Lemma same_wiring_trans (st1 st2 st3 : State) :
  same_wiring st1 st2 -> same_wiring st2 st3 -> same_wiring st1 st3.
Proof.
  intros (Hc & Hr & Hd) (Hc' & Hr' & Hd').
  repeat split; eapply alike_trans; eassumption.
Qed.

Lemma updateStatusBar_same_wiring (h : Host) (st : State) :
  same_wiring st (updateStatusBar h st).
Proof.
  destruct (updateStatusBar_buttons h st) as (Hc & Hr & Hd). unfold same_wiring.
  rewrite Hc, Hr, Hd. split; [apply alike_with_text|split; apply alike_refl].
Qed.

Lemma selectConfig_same_wiring (h : Host) (ui : UserInput) (st : State) :
  same_wiring st (selectConfig h ui st).
Proof.
  unfold selectConfig. destruct (bool_decide _).
  - destruct (create_configuration ui); repeat split; apply alike_refl.
  - destruct (pick ui ≫= _) as [selected|]; [|apply same_wiring_refl].
    eapply same_wiring_trans; [|apply updateStatusBar_same_wiring].
    repeat split; apply alike_refl.
Qed.

Lemma start_same_wiring (h : Host) (ui : UserInput) (st : State) :
  same_wiring st (runSelectedCommand h ui st) /\ same_wiring st (debugSelectedCommand h ui st).
Proof.
  unfold runSelectedCommand, debugSelectedCommand.
  assert (H1 : same_wiring st
                 match selectedConfig st with
                 | Some _ => st
                 | None => selectConfig h ui st
                 end).
  { destruct (selectedConfig st); [apply same_wiring_refl|apply selectConfig_same_wiring]. }
  revert H1. generalize (match selectedConfig st with
                         | Some _ => st
                         | None => selectConfig h ui st
                         end). intros st1 H1. cbv zeta.
  by destruct (selectedConfig st1).
Qed.

Lemma wired_same_wiring (h : Host) (st st' : State) :
  wired h st -> same_wiring st st' -> wired h st'.
Proof.
  unfold wired, same_wiring, alike. intros [(-> & -> & ->)|Hsome] (Hc & Hr & Hd).
  - left. by destruct (configButton st'), (runButton st'), (debugButton st').
  - right. destruct Hsome as (cb & rb & db & Hcb & Hrb & Hdb & H).
    rewrite Hcb in Hc. rewrite Hrb in Hr. rewrite Hdb in Hd.
    destruct (configButton st') as [cb'|]; [|done].
    destruct (runButton st') as [rb'|]; [|done].
    destruct (debugButton st') as [db'|]; [|done].
    exists cb', rb', db'.
    destruct H as (? & ? & ? & ? & ? & ?), Hc as (? & ? & ?), Hr as (? & ? & ?),
      Hd as (? & ? & ?).
    repeat split; congruence.
Qed.

Lemma wired_setting (h h' : Host) (st : State) :
  showInStatusBar h' = showInStatusBar h -> wired h st -> wired h' st.
Proof. unfold wired. by intros ->. Qed.

(** Whatever the setting was, [updateStatusBarVisibility] brings the buttons
    in line with the setting as it is. *)
Lemma updateStatusBarVisibility_wired (h0 h : Host) (st : State) :
  wired h0 st -> wired h (updateStatusBarVisibility h st).
Proof.
  intros Hwired. unfold updateStatusBarVisibility.
  destruct (default true (showInStatusBar h)) eqn:Hshow.
  - eapply wired_same_wiring; [|apply updateStatusBar_same_wiring].
    unfold wired. rewrite Hshow. right.
    destruct Hwired as [(Hc & Hr & Hd)|(cb & rb & db & Hc & Hr & Hd & ? & ? & ? & _)];
      destruct st as [sel c r d key eff]; simpl in *; subst; simpl; eauto 20.
  - unfold wired. rewrite Hshow.
    destruct Hwired as [(Hc & Hr & Hd)|(cb & rb & db & Hc & Hr & Hd & ? & ? & ? & _)];
      destruct st as [sel c r d key eff]; simpl in *; subst; simpl; [by left|].
    right. eauto 20.
Qed.

Lemma restoreSelection_same_wiring (h : Host) (st : State) :
  same_wiring st (restoreSelection h st).
Proof.
  unfold restoreSelection.
  assert (H1 : same_wiring st
                 match lastConfigKey st with
                 | Some key =>
                     if truthy key then set_selectedConfig (getConfigFromKey h key) st else st
                 | None => st
                 end).
  { destruct (lastConfigKey st) as [key|]; [|apply same_wiring_refl].
    destruct (truthy key); repeat split; apply alike_refl. }
  revert H1. generalize (match lastConfigKey st with
                         | Some key =>
                             if truthy key
                             then set_selectedConfig (getConfigFromKey h key) st else st
                         | None => st
                         end). intros st1 H1. cbv zeta.
  destruct (selectedConfig st1); [done|].
  destruct (bool_decide _); [|done].
  eapply same_wiring_trans; [exact H1|]. repeat split; apply alike_refl.
Qed.

Lemma applyBuiltInButtonVisibility_same_wiring (h : Host) (st : State) :
  same_wiring st (applyBuiltInButtonVisibility h st).
Proof.
  unfold applyBuiltInButtonVisibility.
  destruct (default false _); repeat split; apply alike_refl.
Qed.

Lemma activate_wired (h : Host) (persisted : option string) :
  wired h (activate h (loaded persisted)).
Proof.
  unfold activate.
  eapply wired_same_wiring; [|apply applyBuiltInButtonVisibility_same_wiring].
  apply (updateStatusBarVisibility_wired h).
  eapply wired_same_wiring; [|apply restoreSelection_same_wiring]. by left.
Qed.

Lemma onDidChangeConfiguration_wired (h : Host) (c : ConfigurationChange) (st : State) :
  wired h st -> wired (apply_change c h) (onDidChangeConfiguration (apply_change c h) c st).
Proof.
  intros Hwired. unfold onDidChangeConfiguration. set (h' := apply_change c h).
  assert (H1 : wired h (if bool_decide (is_Some (launch_change c))
                        then updateStatusBar h' st else st)).
  { destruct (bool_decide _); [|done].
    eapply wired_same_wiring; [exact Hwired|apply updateStatusBar_same_wiring]. }
  revert H1. generalize (if bool_decide (is_Some (launch_change c))
                         then updateStatusBar h' st else st). intros st1 H1.
  assert (H2 : wired h' (if bool_decide (is_Some (showInStatusBar_change c))
                         then updateStatusBarVisibility h' st1 else st1)).
  { destruct (showInStatusBar_change c) as [v|] eqn:Hv.
    - rewrite bool_decide_eq_true_2 by eauto. by apply (updateStatusBarVisibility_wired h).
    - rewrite bool_decide_eq_false_2 by (by intros [? ?]).
      apply (wired_setting h); [|done]. subst h'. unfold apply_change. simpl. by rewrite Hv. }
  revert H2. generalize (if bool_decide (is_Some (showInStatusBar_change c))
                         then updateStatusBarVisibility h' st1 else st1). intros st2 H2.
  cbv zeta. destruct (bool_decide _); [|done]. by destruct (reload_window c).
Qed.

Lemma step_wired (h : Host) (st : State) (ev : Event) :
  wired h st -> wired (step (h, st) ev).1 (step (h, st) ev).2.
Proof.
  intros Hwired. destruct ev as [folders|change|ui|ui|ui]; simpl.
  - eapply wired_same_wiring; [|apply updateStatusBar_same_wiring].
    by apply (wired_setting h).
  - by apply onDidChangeConfiguration_wired.
  - eapply wired_same_wiring; [done|apply selectConfig_same_wiring].
  - eapply wired_same_wiring; [done|apply start_same_wiring].
  - eapply wired_same_wiring; [done|apply start_same_wiring].
Qed.

(** X9. In every state of a session the three buttons of the status bar
    exist together or not at all; when they exist, each carries the command
    it was created for, and each is visible exactly when the setting
    showInStatusBar of the host (true when unset) says so. *)
Theorem X9_session_buttons (h0 : Host) (persisted : option string) (evs : list Event) :
  let h := (session h0 persisted evs).1 in
  let st := (session h0 persisted evs).2 in
  (configButton st = None /\ runButton st = None /\ debugButton st = None)
  \/ exists cb rb db,
       configButton st = Some cb /\ runButton st = Some rb /\ debugButton st = Some db
       /\ command cb = "persistentRunButton.selectConfig"
       /\ command rb = "persistentRunButton.runSelected"
       /\ command db = "persistentRunButton.debugSelected"
       /\ visible cb = default true (showInStatusBar h)
       /\ visible rb = default true (showInStatusBar h)
       /\ visible db = default true (showInStatusBar h).
Proof.
  cbv zeta. unfold session.
  assert (Hgen : forall evs h st, wired h st ->
                   wired (foldl step (h, st) evs).1 (foldl step (h, st) evs).2).
  { clear. induction evs as [|ev evs IH]; intros h st Hwired; [done|].
    change (foldl step (h, st) (ev :: evs)) with (foldl step (step (h, st) ev) evs).
    pose proof (step_wired h st ev Hwired) as H1.
    destruct (step (h, st) ev) as [h1 st1]. by apply IH. }
  apply Hgen, activate_wired.
Qed.

Lemma displayed_updateStatusBar (h : Host) (st : State) : displayed (updateStatusBar h st).
Proof.
  intros button. destruct (updateStatusBar_buttons h st) as (-> & _).
  rewrite updateStatusBar_selectedConfig.
  destruct (configButton st) as [b|]; [|done]. by intros [= <-].
Qed.

Lemma displayed_updateStatusBarVisibility (h : Host) (st : State) :
  displayed st -> displayed (updateStatusBarVisibility h st).
Proof.
  intros Hshown. unfold updateStatusBarVisibility. destruct (default true _).
  - apply displayed_updateStatusBar.
  - unfold displayed in *. destruct st as [sel [cb|] rb db key eff]; simpl in *; [|done].
    intros ? [= <-]. simpl. by apply Hshown.
Qed.

Lemma displayed_selectConfig (h : Host) (ui : UserInput) (st : State) :
  displayed st -> displayed (selectConfig h ui st).
Proof.
  intros Hshown. unfold selectConfig. destruct (bool_decide _).
  - by destruct (create_configuration ui).
  - destruct (pick ui ≫= _); [apply displayed_updateStatusBar|done].
Qed.

Lemma displayed_start (h : Host) (ui : UserInput) (st : State) :
  displayed st ->
  displayed (runSelectedCommand h ui st) /\ displayed (debugSelectedCommand h ui st).
Proof.
  intros Hshown. unfold runSelectedCommand, debugSelectedCommand.
  assert (H1 : displayed match selectedConfig st with
                         | Some _ => st
                         | None => selectConfig h ui st
                         end).
  { destruct (selectedConfig st); [done|by apply displayed_selectConfig]. }
  revert H1. generalize (match selectedConfig st with
                         | Some _ => st
                         | None => selectConfig h ui st
                         end). intros st1 H1. cbv zeta.
  by destruct (selectedConfig st1).
Qed.

Lemma displayed_step (h : Host) (st : State) (ev : Event) :
  displayed st -> displayed (step (h, st) ev).2.
Proof.
  intros Hshown. destruct ev as [folders|change|ui|ui|ui]; simpl.
  - apply displayed_updateStatusBar.
  - unfold onDidChangeConfiguration. set (h' := apply_change change h).
    assert (H1 : displayed (if bool_decide (is_Some (launch_change change))
                            then updateStatusBar h' st else st)).
    { destruct (bool_decide _); [apply displayed_updateStatusBar|done]. }
    revert H1. generalize (if bool_decide (is_Some (launch_change change))
                           then updateStatusBar h' st else st). intros st1 H1.
    assert (H2 : displayed (if bool_decide (is_Some (showInStatusBar_change change))
                            then updateStatusBarVisibility h' st1 else st1)).
    { destruct (bool_decide _); [by apply displayed_updateStatusBarVisibility|done]. }
    revert H2. generalize (if bool_decide (is_Some (showInStatusBar_change change))
                           then updateStatusBarVisibility h' st1 else st1). intros st2 H2.
    cbv zeta. destruct (bool_decide _); [|done]. by destruct (reload_window change).
  - by apply displayed_selectConfig.
  - by apply displayed_start.
  - by apply displayed_start.
Qed.

Lemma displayed_activate (h : Host) (persisted : option string) :
  displayed (activate h (loaded persisted)).
Proof.
  unfold activate.
  assert (H1 : displayed (updateStatusBarVisibility h (restoreSelection h (loaded persisted)))).
  { apply displayed_updateStatusBarVisibility. intros button Hbutton.
    destruct (restoreSelection_same_wiring h (loaded persisted)) as (Hc & _).
    simpl in Hc. by rewrite Hbutton in Hc. }
  unfold applyBuiltInButtonVisibility. by destruct (default false _).
Qed.

(** X10. In every state of a session in which the config button exists, its
    text is the one that goes with the selection: "$(debug-configure) "
    followed by the name of the selected entry, or
    "$(debug-configure) No Config" when nothing is selected. *)
Theorem X10_session_display
    (h0 : Host) (persisted : option string) (evs : list Event) (button : StatusBarItem) :
  configButton (session h0 persisted evs).2 = Some button ->
  text button =
    match selectedConfig (session h0 persisted evs).2 with
    | Some sel => "$(debug-configure) " +:+ LaunchConfig.name sel
    | None => "$(debug-configure) No Config"
    end.
Proof.
  unfold session.
  assert (Hgen : forall evs h st, displayed st -> displayed (foldl step (h, st) evs).2).
  { clear. induction evs as [|ev evs IH]; intros h st Hshown; [done|].
    change (foldl step (h, st) (ev :: evs)) with (foldl step (step (h, st) ev) evs).
    pose proof (displayed_step h st ev Hshown) as H1.
    destruct (step (h, st) ev) as [h1 st1]. by apply IH. }
  apply (Hgen evs h0 _ (displayed_activate h0 persisted)).
Qed.

Lemma X10_session_display_witness :
  text <$> configButton
             (session Examples.oneRoot (Some "RootA:Launch")
                [DidChangeConfiguration Examples.deleteLaunch]).2
  = Some "$(debug-configure) Test".
Proof.
  destruct (configButton
              (session Examples.oneRoot (Some "RootA:Launch")
                 [DidChangeConfiguration Examples.deleteLaunch]).2) as [button|] eqn:Hbutton.
  - simpl. f_equal.
    exact (X10_session_display Examples.oneRoot (Some "RootA:Launch")
             [DidChangeConfiguration Examples.deleteLaunch] button Hbutton).
  - discriminate Hbutton.
Defined.

Lemma updateStatusBar_twice (h : Host) (st : State) :
  updateStatusBar h (updateStatusBar h st) = updateStatusBar h st.
Proof.
  destruct st as [selected [button|] rb db key eff]; [|reflexivity].
  pose proof (reconcile_idempotent h selected) as Hidem.
  unfold updateStatusBar; cbn -[reconcile].
  destruct (reconcile h selected) as [sel|] eqn:Hsel; cbn -[reconcile].
  - rewrite Hidem. reflexivity.
  - reflexivity.
Qed.

Lemma show_shown (b : StatusBarItem) : visible b = true -> show b = b.
Proof. destruct b as [t c tt v]. simpl. by intros ->. Qed.

Lemma hide_hidden (b : StatusBarItem) : hide (hide b) = hide b.
Proof. reflexivity. Qed.

Lemma visibility_shown (h : Host) (st : State) :
  default true (showInStatusBar h) = true ->
  exists sel cb rb db key eff,
    updateStatusBarVisibility h st
    = updateStatusBar h (mkState sel (Some cb) (Some rb) (Some db) key eff)
    /\ visible cb = true /\ visible rb = true /\ visible db = true.
Proof.
  intros Hshow. unfold updateStatusBarVisibility. rewrite Hshow.
  destruct st as [sel [cb|] [rb|] [db|] key eff]; do 6 eexists; (split; [reflexivity|]); done.
Qed.

Lemma visibility_off (h : Host) (st : State) :
  default true (showInStatusBar h) = false ->
  updateStatusBarVisibility h st
  = mkState (selectedConfig st) (hide <$> configButton st) (hide <$> runButton st)
            (hide <$> debugButton st) (lastConfigKey st) (effects st).
Proof. intros Hshow. unfold updateStatusBarVisibility. by rewrite Hshow. Qed.

Lemma visibility_fixed (h : Host) (st : State) (cb rb db : StatusBarItem) :
  default true (showInStatusBar h) = true ->
  configButton st = Some cb -> runButton st = Some rb -> debugButton st = Some db ->
  visible cb = true -> visible rb = true -> visible db = true ->
  updateStatusBarVisibility h st = updateStatusBar h st.
Proof.
  intros Hshow Hc Hr Hd Hcv Hrv Hdv. unfold updateStatusBarVisibility. rewrite Hshow.
  destruct st as [sel c r d key eff]. simpl in Hc, Hr, Hd. subst c r d.
  destruct cb as [ct cc ctt cv], rb as [rt rc rtt rv], db as [dt dc dtt dv].
  simpl in Hcv, Hrv, Hdv. subst cv rv dv. reflexivity.
Qed.

(** X11. [updateStatusBarVisibility] is idempotent: run twice against the
    same host it leaves the state as one run leaves it. *)
Theorem X11_visibility_idempotent (h : Host) (st : State) :
  updateStatusBarVisibility h (updateStatusBarVisibility h st)
  = updateStatusBarVisibility h st.
Proof.
  destruct (default true (showInStatusBar h)) eqn:Hshow.
  - destruct (visibility_shown h st Hshow)
      as (sel & cb & rb & db & key & eff & -> & Hcb & Hrb & Hdb).
    destruct (updateStatusBar_buttons h (mkState sel (Some cb) (Some rb) (Some db) key eff))
      as (Hc' & Hr' & Hd').
    remember (updateStatusBar h (mkState sel (Some cb) (Some rb) (Some db) key eff)) as st1 eqn:Hst1.
    assert (Hfix : updateStatusBarVisibility h st1 = updateStatusBar h st1).
    { apply (visibility_fixed h st1 (with_text (label_of (reconcile h sel)) cb) rb db);
        done. }
    rewrite Hfix, Hst1. apply updateStatusBar_twice.
  - rewrite !visibility_off by done.
    destruct st as [sel [cb|] [rb|] [db|] key eff]; reflexivity.
Qed.

Lemma updateStatusBarVisibility_configButton (h : Host) (st : State) :
  is_Some (configButton st) -> is_Some (configButton (updateStatusBarVisibility h st)).
Proof.
  intros [cb Hcb]. unfold updateStatusBarVisibility. destruct (default true _).
  - apply updateStatusBar_configButton.
    destruct st as [sel c [rb|] [db|] key eff]; simpl in *; subst; simpl; eauto.
  - destruct st as [sel c rb db key eff]; simpl in *; subst; simpl; eauto.
Qed.

(** X12. A config button that exists is never removed: it still exists after
    every event, also after the status bar is switched off in the settings
    (it is hidden then), so that later changes keep validating the
    selection. *)
Theorem X12_config_button_stays (h : Host) (st : State) (ev : Event) :
  is_Some (configButton st) ->
  is_Some (configButton (step (h, st) ev).2)
  /\ forall change,
       is_Some (launch_change change) ->
       selectedConfig (step (step (h, st) ev) (DidChangeConfiguration change)).2
       = reconcile (apply_change change (step (h, st) ev).1)
                   (selectedConfig (step (h, st) ev).2).
Proof.
  intros Hbutton.
  assert (Hstays : is_Some (configButton (step (h, st) ev).2)).
  { destruct ev as [folders|change|ui|ui|ui]; simpl.
    - by apply updateStatusBar_configButton.
    - unfold onDidChangeConfiguration. set (h' := apply_change change h).
      assert (H1 : is_Some (configButton (if bool_decide (is_Some (launch_change change))
                                          then updateStatusBar h' st else st))).
      { destruct (bool_decide _); [by apply updateStatusBar_configButton|done]. }
      revert H1. generalize (if bool_decide (is_Some (launch_change change))
                             then updateStatusBar h' st else st). intros st1 H1.
      assert (H2 : is_Some (configButton
                              (if bool_decide (is_Some (showInStatusBar_change change))
                               then updateStatusBarVisibility h' st1 else st1))).
      { destruct (bool_decide _); [by apply updateStatusBarVisibility_configButton|done]. }
      revert H2. generalize (if bool_decide (is_Some (showInStatusBar_change change))
                             then updateStatusBarVisibility h' st1 else st1). intros st2 H2.
      cbv zeta. destruct (bool_decide _); [|done]. by destruct (reload_window change).
    - destruct (selectConfig_same_wiring h ui st) as (Hc & _).
      destruct Hbutton as [cb Hcb]. rewrite Hcb in Hc.
      by destruct (configButton (selectConfig h ui st)).
    - destruct (start_same_wiring h ui st) as ((Hc & _) & _).
      destruct Hbutton as [cb Hcb]. rewrite Hcb in Hc.
      by destruct (configButton (runSelectedCommand h ui st)).
    - destruct (start_same_wiring h ui st) as (_ & (Hc & _)).
      destruct Hbutton as [cb Hcb]. rewrite Hcb in Hc.
      by destruct (configButton (debugSelectedCommand h ui st)). }
  split; [done|]. intros change Hchange.
  destruct (step (h, st) ev) as [h1 st1]. by apply launch_changed_reconciles.
Qed.

(** After the status bar is switched off, deleting Launch still moves the
    selection to Test. *)
Lemma X12_config_button_stays_witness :
  visible <$> configButton
                (step (Examples.oneRoot, Examples.launchSelected)
                   (DidChangeConfiguration Workspaces.switchOff)).2
  = Some false
  /\ selectedConfig
       (step (step (Examples.oneRoot, Examples.launchSelected)
                (DidChangeConfiguration Workspaces.switchOff))
             (DidChangeConfiguration Examples.deleteLaunch)).2
     = Some (Examples.entry Examples.test Examples.rootA).
Proof.
  split; [reflexivity|].
  destruct (X12_config_button_stays Examples.oneRoot Examples.launchSelected
              (DidChangeConfiguration Workspaces.switchOff)) as (_ & Hvalidates).
  - eexists. reflexivity.
  - etransitivity; [apply Hvalidates; eexists; reflexivity|reflexivity].
Defined.

(** ** The selection under changes of the workspace *)

Lemma foldl_step_cons (hs : Host * State) (ev : Event) (evs : list Event) :
  foldl step hs (ev :: evs) = foldl step (step hs ev) evs.
Proof. reflexivity. Qed.

Lemma updateStatusBar_no_button (h : Host) (st : State) :
  configButton st = None -> updateStatusBar h st = st.
Proof. intros Hnone. unfold updateStatusBar. by rewrite Hnone. Qed.

(** X13. While the config button does not exist, changes of the workspace
    folders and changes of the settings that leave showInStatusBar alone do
    not touch the selection, whatever they do to the enumeration; the button
    still does not exist afterwards. *)
Theorem X13_no_button_no_validation (evs : list Event) (h : Host) (st : State) :
  configButton st = None ->
  Forall (fun ev => keeps_setting ev = true) evs ->
  selectedConfig (foldl step (h, st) evs).2 = selectedConfig st
  /\ configButton (foldl step (h, st) evs).2 = None.
Proof.
  revert h st. induction evs as [|ev evs IH]; intros h st Hnone Hevs; [done|].
  rewrite foldl_step_cons. inversion Hevs as [|? ? Hev Hrest]; subst.
  assert (Hstep : selectedConfig (step (h, st) ev).2 = selectedConfig st
                  /\ configButton (step (h, st) ev).2 = None).
  { destruct ev as [folders|change|ui|ui|ui]; simpl in *; try done.
    - unfold onDidChangeWorkspaceFolders. by rewrite updateStatusBar_no_button.
    - apply bool_decide_eq_true_1 in Hev. destruct change as [l s hb rw].
      simpl in Hev. subst s. unfold onDidChangeConfiguration.
      cbn [launch_change showInStatusBar_change hideBuiltInRunButton_change reload_window].
      rewrite updateStatusBar_no_button by done.
      rewrite (bool_decide_eq_false_2 (is_Some None)) by (by intros [? ?]).
      destruct (bool_decide (is_Some l)), (bool_decide (is_Some hb)), rw; done. }
  destruct (step (h, st) ev) as [h1 st1]. simpl in Hstep. destruct Hstep as [Hsel Hbutton].
  destruct (IH h1 st1 Hbutton Hrest) as [IHsel IHbutton]. split; [congruence|done].
Qed.

Lemma X13_no_button_no_validation_witness :
  selectedConfig
    (foldl step (Examples.hidden Examples.oneRoot, Workspaces.hiddenLaunch)
       [DidChangeConfiguration Examples.deleteLaunch; DidChangeWorkspaceFolders None]).2
  = Some (Examples.entry Examples.launch Examples.rootA).
Proof.
  apply (X13_no_button_no_validation
           [DidChangeConfiguration Examples.deleteLaunch; DidChangeWorkspaceFolders None]
           (Examples.hidden Examples.oneRoot) Workspaces.hiddenLaunch).
  - reflexivity.
  - repeat constructor.
Defined.

Lemma reconcile_None (h : Host) : reconcile h None = None.
Proof. reflexivity. Qed.

Lemma change_keeps_empty (h : Host) (st : State) (ev : Event) :
  is_change ev = true ->
  selectedConfig st = None ->
  selectedConfig (step (h, st) ev).2 = None.
Proof.
  intros Hev Hnone. destruct ev as [folders|change|ui|ui|ui]; simpl in *; try done.
  - unfold onDidChangeWorkspaceFolders. rewrite updateStatusBar_selectedConfig, Hnone.
    by destruct (configButton st).
  - unfold onDidChangeConfiguration. set (h' := apply_change change h).
    assert (H1 : selectedConfig (if bool_decide (is_Some (launch_change change))
                                 then updateStatusBar h' st else st) = None).
    { destruct (bool_decide _); [|done]. rewrite updateStatusBar_selectedConfig, Hnone.
      by destruct (configButton st). }
    revert H1. generalize (if bool_decide (is_Some (launch_change change))
                           then updateStatusBar h' st else st). intros st1 H1.
    assert (H2 : selectedConfig (if bool_decide (is_Some (showInStatusBar_change change))
                                 then updateStatusBarVisibility h' st1 else st1) = None).
    { destruct (bool_decide _); [|done]. rewrite updateStatusBarVisibility_selectedConfig, H1.
      by destruct (default true _). }
    revert H2. generalize (if bool_decide (is_Some (showInStatusBar_change change))
                           then updateStatusBarVisibility h' st1 else st1). intros st2 H2.
    cbv zeta. destruct (bool_decide _); [|done]. by destruct (reload_window change).
Qed.

(** X14. An empty selection is not filled by changes of the workspace: when
    nothing is selected, it is still so after any sequence of folder and
    settings changes, also when configurations appear.  Only the commands
    select. *)
Theorem X14_empty_stays_empty (evs : list Event) (h : Host) (st : State) :
  selectedConfig st = None ->
  Forall (fun ev => is_change ev = true) evs ->
  selectedConfig (foldl step (h, st) evs).2 = None.
Proof.
  revert h st. induction evs as [|ev evs IH]; intros h st Hnone Hevs; [done|].
  rewrite foldl_step_cons. inversion Hevs as [|? ? Hev Hrest]; subst.
  pose proof (change_keeps_empty h st ev Hev Hnone) as Hstep.
  destruct (step (h, st) ev) as [h1 st1]. by apply IH.
Qed.

(** A root with the configurations Launch and Test is added to an empty
    workspace: three entries are enumerated and nothing is selected. *)
Lemma X14_empty_stays_empty_witness :
  length (getAllConfigs
            (foldl step (Examples.noRoots, Workspaces.nothingSelected)
               Workspaces.rootsAppear).1) = 3%nat
  /\ selectedConfig
       (foldl step (Examples.noRoots, Workspaces.nothingSelected) Workspaces.rootsAppear).2
     = None.
Proof.
  split; [reflexivity|].
  apply (X14_empty_stays_empty Workspaces.rootsAppear Examples.noRoots
           Workspaces.nothingSelected).
  - reflexivity.
  - repeat constructor.
Defined.

(** X15. A held selection is never dropped while something is enumerated:
    if a selection is held and the enumeration is not empty, a selection is
    held after [updateStatusBar], and it has the names of an enumerated entry
    when the config button exists. *)
Theorem X15_selection_kept_while_configurations_exist
    (h : Host) (st : State) (held : LaunchConfig.t) :
  selectedConfig st = Some held ->
  getAllConfigs h <> [] ->
  exists sel,
    selectedConfig (updateStatusBar h st) = Some sel
    /\ (is_Some (configButton st) -> stillExists h sel = true).
Proof.
  intros Hheld Hsome. rewrite updateStatusBar_selectedConfig, Hheld.
  destruct (configButton st) as [button|].
  - destruct (stillExists h held) eqn:Hex.
    + rewrite reconcile_kept by done. by exists held.
    + rewrite reconcile_repaired by done.
      destruct (getAllConfigs h) as [|first rest] eqn:Hconfigs; [done|].
      exists first. split; [done|]. intros _. apply stillExists_enumerated.
      rewrite Hconfigs. by left.
  - exists held. split; [done|]. by intros [? ?].
Qed.

Lemma X15_selection_kept_while_configurations_exist_witness :
  exists sel,
    selectedConfig (updateStatusBar Examples.onlyTest Examples.launchSelected) = Some sel
    /\ (is_Some (configButton Examples.launchSelected) ->
        stillExists Examples.onlyTest sel = true).
Proof.
  apply (X15_selection_kept_while_configurations_exist Examples.onlyTest
           Examples.launchSelected (Examples.entry Examples.launch Examples.rootA)).
  - reflexivity.
  - discriminate.
Defined.

(** ** The stored key *)

Lemma onDidChangeConfiguration_lastConfigKey (h : Host) (c : ConfigurationChange) (st : State) :
  lastConfigKey (onDidChangeConfiguration h c st) = lastConfigKey st.
Proof.
  unfold onDidChangeConfiguration.
  assert (H1 : lastConfigKey (if bool_decide (is_Some (launch_change c))
                              then updateStatusBar h st else st) = lastConfigKey st).
  { destruct (bool_decide _); [apply updateStatusBar_lastConfigKey|done]. }
  revert H1. generalize (if bool_decide (is_Some (launch_change c))
                         then updateStatusBar h st else st). intros st1 H1.
  assert (H2 : lastConfigKey (if bool_decide (is_Some (showInStatusBar_change c))
                              then updateStatusBarVisibility h st1 else st1)
               = lastConfigKey st).
  { destruct (bool_decide _); [by rewrite updateStatusBarVisibility_lastConfigKey|done]. }
  revert H2. generalize (if bool_decide (is_Some (showInStatusBar_change c))
                         then updateStatusBarVisibility h st1 else st1). intros st2 H2.
  cbv zeta. destruct (bool_decide _); [|done]. by destruct (reload_window c).
Qed.

Lemma selectConfig_key_cases (h : Host) (ui : UserInput) (st : State) :
  (chosen h ui = None /\ lastConfigKey (selectConfig h ui st) = lastConfigKey st
   /\ selectedConfig (selectConfig h ui st) = selectedConfig st)
  \/ exists c, chosen h ui = Some c
               /\ lastConfigKey (selectConfig h ui st) = Some (getConfigKey c)
               /\ selectedConfig (selectConfig h ui st) = Some c.
Proof.
  destruct (chosen h ui) as [c|] eqn:Hc.
  - right. exists c. by destruct (selectConfig_picked h ui st c Hc) as (_ & ? & ? & _).
  - left. by destruct (selectConfig_not_picked h ui st Hc) as (? & ? & _).
Qed.

(** X16. Only a pick writes the stored key.  After any event the value under
    'lastConfigKey' is what it was before, unless the event is the select
    command, or a run or debug command issued with nothing selected, and the
    user picks an entry: then the stored value is the key of that entry and
    that entry is the selection. *)
Theorem X16_only_a_pick_writes_the_key (h : Host) (st : State) (ev : Event) :
  lastConfigKey (step (h, st) ev).2 = lastConfigKey st
  \/ exists ui c,
       (ev = SelectConfig ui
        \/ (selectedConfig st = None /\ (ev = RunSelected ui \/ ev = DebugSelected ui)))
       /\ chosen h ui = Some c
       /\ lastConfigKey (step (h, st) ev).2 = Some (getConfigKey c)
       /\ selectedConfig (step (h, st) ev).2 = Some c.
Proof.
  destruct ev as [folders|change|ui|ui|ui]; simpl.
  - left. apply updateStatusBar_lastConfigKey.
  - left. apply onDidChangeConfiguration_lastConfigKey.
  - destruct (selectConfig_key_cases h ui st) as [(_ & Hkey & _)|(c & Hc & Hkey & Hsel)];
      [by left|]. right. exists ui, c. eauto.
  - unfold runSelectedCommand. destruct (selectedConfig st) as [held|] eqn:Hheld.
    + left. cbv zeta. by rewrite Hheld.
    + destruct (selectConfig_key_cases h ui st) as [(_ & Hkey & Hsel)|(c & Hc & Hkey & Hsel)].
      * left. cbv zeta. rewrite Hsel, Hheld. done.
      * right. exists ui, c. cbv zeta. rewrite Hsel. simpl. eauto 10.
  - unfold debugSelectedCommand. destruct (selectedConfig st) as [held|] eqn:Hheld.
    + left. cbv zeta. by rewrite Hheld.
    + destruct (selectConfig_key_cases h ui st) as [(_ & Hkey & Hsel)|(c & Hc & Hkey & Hsel)].
      * left. cbv zeta. rewrite Hsel, Hheld. done.
      * right. exists ui, c. cbv zeta. rewrite Hsel. simpl. eauto 10.
Qed.

(** X17. A choice survives a restart.  When the user picks an entry whose
    root name and configuration name contain no ':', a module loaded afresh
    with the stored key and activated against the same host selects the first
    enumerated entry with the names of the picked entry; it selects the
    picked entry itself when no other enumerated entry has both names. *)
Theorem X17_choice_survives_restart (h : Host) (ui : UserInput) (st : State) (c : LaunchConfig.t) :
  chosen h ui = Some c ->
  lacks ":" (WorkspaceFolder.name (LaunchConfig.folder c)) = true ->
  lacks ":" (LaunchConfig.name c) = true ->
  (exists first before after,
      selectedConfig (activate h (loaded (lastConfigKey (selectConfig h ui st)))) = Some first
      /\ getAllConfigs h = before ++ first :: after
      /\ WorkspaceFolder.name (LaunchConfig.folder first)
         = WorkspaceFolder.name (LaunchConfig.folder c)
      /\ LaunchConfig.name first = LaunchConfig.name c
      /\ forall c', In c' before ->
           ~ (WorkspaceFolder.name (LaunchConfig.folder c')
              = WorkspaceFolder.name (LaunchConfig.folder c)
              /\ LaunchConfig.name c' = LaunchConfig.name c))
  /\ ((forall c', In c' (getAllConfigs h) ->
         WorkspaceFolder.name (LaunchConfig.folder c')
         = WorkspaceFolder.name (LaunchConfig.folder c) ->
         LaunchConfig.name c' = LaunchConfig.name c -> c' = c) ->
      selectedConfig (activate h (loaded (lastConfigKey (selectConfig h ui st)))) = Some c).
Proof.
  intros Hc Hf Hn.
  destruct (selectConfig_picked h ui st c Hc) as (Hin & _ & -> & _).
  rewrite activate_selectedConfig, restoreSelection_selectedConfig. simpl.
  set (p := same_names (WorkspaceFolder.name (LaunchConfig.folder c)) (LaunchConfig.name c)).
  assert (Hcode : getConfigFromKey h (getConfigKey c) = List.find p (getAllConfigs h)).
  { unfold getConfigFromKey. rewrite split_getConfigKey by done. reflexivity. }
  assert (Hsome : is_Some (List.find p (getAllConfigs h))).
  { apply find_is_Some_existsb, existsb_exists. exists c. split; [done|].
    apply same_names_self. }
  destruct Hsome as [first Hfirst]. rewrite Hcode, Hfirst.
  destruct (find_first _ _ _ Hfirst) as (before & after & Hsplit & Hp & Hbefore).
  apply same_names_spec in Hp as [Hpf Hpn]. split.
  - exists first, before, after. split; [done|]. split; [done|]. split; [done|].
    split; [done|]. intros c' Hc' Hnames. apply same_names_spec in Hnames.
    specialize (Hbefore c' Hc'). unfold p in Hbefore. congruence.
  - intros Hunique. f_equal. apply Hunique; [|done|done].
    rewrite Hsplit. apply in_or_app. right. by left.
Qed.

Lemma X17_choice_survives_restart_witness :
  selectedConfig
    (activate Examples.oneRoot
       (loaded (lastConfigKey
                  (selectConfig Examples.oneRoot Examples.pickSecond Examples.launchSelected))))
  = Some (Examples.entry Examples.test Examples.rootA).
Proof.
  apply (X17_choice_survives_restart Examples.oneRoot Examples.pickSecond
           Examples.launchSelected (Examples.entry Examples.test Examples.rootA)).
  - reflexivity.
  - reflexivity.
  - reflexivity.
  - intros c' [<-|[<-|[<-|[]]]]; simpl; intros Hf Hn; solve [reflexivity | discriminate].
Defined.

(** ** Sessions started *)

Lemma updateStatusBarVisibility_effects (h : Host) (st : State) :
  effects (updateStatusBarVisibility h st) = effects st.
Proof.
  unfold updateStatusBarVisibility. destruct (default true (showInStatusBar h)); [|done].
  rewrite updateStatusBar_effects. by destruct st as [sel [cb|] [rb|] [db|] key eff].
Qed.

Lemma restoreSelection_effects (h : Host) (st : State) :
  effects (restoreSelection h st) = effects st.
Proof.
  unfold restoreSelection.
  assert (H1 : effects match lastConfigKey st with
                       | Some key =>
                           if truthy key
                           then set_selectedConfig (getConfigFromKey h key) st else st
                       | None => st
                       end = effects st).
  { destruct (lastConfigKey st) as [key|]; [|done]. by destruct (truthy key). }
  revert H1. generalize (match lastConfigKey st with
                         | Some key =>
                             if truthy key
                             then set_selectedConfig (getConfigFromKey h key) st else st
                         | None => st
                         end). intros st1 H1. cbv zeta.
  destruct (selectedConfig st1); [done|]. by destruct (bool_decide _).
Qed.

Lemma activate_dispatches (h : Host) (persisted : option string) :
  dispatches (effects (activate h (loaded persisted))) = 0%nat.
Proof.
  unfold activate, applyBuiltInButtonVisibility.
  destruct (default false _); simpl; rewrite ?dispatches_push;
    rewrite updateStatusBarVisibility_effects, restoreSelection_effects; reflexivity.
Qed.

Lemma onDidChangeConfiguration_dispatches (h : Host) (c : ConfigurationChange) (st : State) :
  dispatches (effects (onDidChangeConfiguration h c st)) = dispatches (effects st).
Proof.
  unfold onDidChangeConfiguration.
  assert (H1 : effects (if bool_decide (is_Some (launch_change c))
                        then updateStatusBar h st else st) = effects st).
  { destruct (bool_decide _); [apply updateStatusBar_effects|done]. }
  revert H1. generalize (if bool_decide (is_Some (launch_change c))
                         then updateStatusBar h st else st). intros st1 H1.
  assert (H2 : effects (if bool_decide (is_Some (showInStatusBar_change c))
                        then updateStatusBarVisibility h st1 else st1) = effects st).
  { destruct (bool_decide _); [by rewrite updateStatusBarVisibility_effects|done]. }
  revert H2. generalize (if bool_decide (is_Some (showInStatusBar_change c))
                         then updateStatusBarVisibility h st1 else st1). intros st2 H2.
  cbv zeta. destruct (bool_decide _); [|by rewrite H2].
  destruct (reload_window c); simpl; rewrite !dispatches_push, H2; simpl; lia.
Qed.

Lemma step_dispatches (h : Host) (st : State) (ev : Event) :
  dispatches (effects (step (h, st) ev).2)
  <= dispatches (effects st) + (if is_start_event ev then 1 else 0).
Proof.
  destruct ev as [folders|change|ui|ui|ui]; simpl.
  - unfold onDidChangeWorkspaceFolders. rewrite updateStatusBar_effects. lia.
  - rewrite onDidChangeConfiguration_dispatches. lia.
  - rewrite selectConfig_dispatches. lia.
  - destruct (start_cases h ui st) as (st1 & Hcount & _ & _ & -> & _).
    destruct (selectedConfig st1); simpl; rewrite ?dispatches_push; simpl; lia.
  - destruct (start_cases h ui st) as (st1 & Hcount & _ & _ & _ & ->).
    destruct (selectedConfig st1); simpl; rewrite ?dispatches_push; simpl; lia.
Qed.

Lemma starts_cons (ev : Event) (evs : list Event) :
  starts (ev :: evs) = (if is_start_event ev then 1 else 0) + starts evs.
Proof.
  unfold starts. rewrite filter_cons. destruct (is_start_event ev); by case_decide.
Qed.

(** X18. The extension starts a session only when asked to: in a session,
    the number of calls of [debug.startDebugging] is at most the number of
    run and debug commands issued; activation and the listeners of changes
    start none. *)
Theorem X18_sessions_only_on_command (h0 : Host) (persisted : option string) (evs : list Event) :
  dispatches (effects (session h0 persisted evs).2) <= starts evs
  /\ dispatches (effects (activate h0 (loaded persisted))) = 0%nat.
Proof.
  split; [|apply activate_dispatches]. unfold session.
  assert (Hgen : forall evs h st,
            dispatches (effects (foldl step (h, st) evs).2)
            <= dispatches (effects st) + starts evs).
  { clear. induction evs as [|ev evs IH]; intros h st; [simpl; lia|].
    rewrite foldl_step_cons, starts_cons.
    pose proof (step_dispatches h st ev) as Hstep.
    destruct (step (h, st) ev) as [h1 st1]. specialize (IH h1 st1). simpl in *. lia. }
  specialize (Hgen evs h0 (activate h0 (loaded persisted))).
  rewrite activate_dispatches in Hgen. lia.
Qed.

(** ** Registration of the commands *)

Lemma registerSelectConfigCommand_registered (r : Registry) :
  registered r ->
  exists r',
    registerSelectConfigCommand r = Some r'
    /\ registered r'
    /\ length (subscriptions r') = S (length (subscriptions r))
    /\ (forall id, id <> "persistentRunButton.selectConfig" ->
          commands r' !! id = commands r !! id)
    /\ commands r' !! "persistentRunButton.selectConfig" = Some (fresh r).
Proof.
  intros (handle & Hheld & Hlive & Hlt).
  unfold registerSelectConfigCommand, registerCommand. rewrite Hheld. simpl.
  rewrite (bool_decide_eq_true_2 _ Hlive). rewrite lookup_delete_eq.
  eexists. split; [reflexivity|]. simpl. repeat split.
  - exists (fresh r). simpl. rewrite lookup_insert_eq. repeat split. lia.
  - unfold push. rewrite length_app. simpl. lia.
  - intros id Hid. rewrite lookup_insert_ne by done. by rewrite lookup_delete_ne.
  - by rewrite lookup_insert_eq.
Qed.

Lemma registerSelectConfigCommand_covered (r r' : Registry) :
  covered r -> registerSelectConfigCommand r = Some r' -> covered r'.
Proof.
  intros Hcov. unfold registerSelectConfigCommand, registerCommand.
  set (cmds := match selectConfigDisposable r with
               | Some d => dispose d (commands r)
               | None => commands r
               end).
  assert (Hsub : forall id handle, cmds !! id = Some handle -> commands r !! id = Some handle).
  { intros id handle. subst cmds. destruct (selectConfigDisposable r) as [[c n|ev]|]; simpl;
      try done. destruct (bool_decide _); [|done].
    destruct (decide (c = id)) as [->|Hne]; [by rewrite lookup_delete_eq|].
    by rewrite lookup_delete_ne. }
  assert (Hgoal : forall fr held subs,
            fr = fresh r -> subs = subscriptions r ->
            match registerCommand "persistentRunButton.selectConfig"
                    (mkRegistry cmds fr held subs) with
            | Some (d, r1) =>
                Some (mkRegistry (commands r1) (fresh r1) (Some d) (push (subscriptions r1) d))
            | None => None
            end = Some r' -> covered r').
  { intros fr held subs -> ->. unfold registerCommand. simpl.
    destruct (cmds !! "persistentRunButton.selectConfig"); [done|].
    intros [= <-]. intros id handle. simpl. unfold push.
    destruct (decide ("persistentRunButton.selectConfig" = id)) as [<-|Hne].
    - rewrite lookup_insert_eq. intros [= <-]. apply in_or_app. right. by left.
    - rewrite lookup_insert_ne by done. intros Hid. apply in_or_app. left.
      by apply Hcov, Hsub. }
  destruct (selectConfigDisposable r) as [d|] eqn:Hd; simpl.
  - apply (Hgoal (fresh r) (Some d) (subscriptions r)); done.
  - destruct r as [c f s0 subs]. simpl in *. subst s0.
    apply (Hgoal f None subs); done.
Qed.

Lemma reregister_registered (picks : nat) (r : Registry) :
  registered r -> covered r ->
  exists r',
    reregister picks r = Some r'
    /\ registered r' /\ covered r'
    /\ length (subscriptions r') = length (subscriptions r) + picks
    /\ forall id, id <> "persistentRunButton.selectConfig" ->
          commands r' !! id = commands r !! id.
Proof.
  revert r. induction picks as [|picks IH]; intros r Hreg Hcov.
  - exists r. simpl. split; [done|]. split; [done|]. split; [done|]. split; [lia|done].
  - destruct (registerSelectConfigCommand_registered r Hreg)
      as (r1 & Hr1 & Hreg1 & Hlen1 & Hother1 & _).
    pose proof (registerSelectConfigCommand_covered r r1 Hcov Hr1) as Hcov1.
    destruct (IH r1 Hreg1 Hcov1) as (r' & Hr' & Hreg' & Hcov' & Hlen' & Hother').
    exists r'. simpl. rewrite Hr1. simpl.
    split; [done|]. split; [done|]. split; [done|]. split; [lia|].
    intros id Hid. by rewrite Hother', Hother1.
Qed.

Lemma activate_registrations_unregistered :
  activate_registrations unregistered = Some activated
  /\ registered activated /\ covered activated
  /\ length (subscriptions activated) = 5
  /\ commands activated !! "persistentRunButton.runSelected" = Some 1
  /\ commands activated !! "persistentRunButton.debugSelected" = Some 2.
Proof.
  split; [vm_compute; reflexivity|]. unfold activated.
  split; [|split; [|split; [reflexivity|split]]].
  - exists 0. cbn [selectConfigDisposable commands fresh]. split; [done|]. split; [|lia].
    rewrite !lookup_insert_ne by done. apply lookup_insert_eq.
  - intros id handle. cbn [commands subscriptions].
    destruct (decide ("persistentRunButton.debugSelected" = id)) as [<-|H1].
    { rewrite lookup_insert_eq. intros [= <-]. right. right. by left. }
    rewrite lookup_insert_ne by done.
    destruct (decide ("persistentRunButton.runSelected" = id)) as [<-|H2].
    { rewrite lookup_insert_eq. intros [= <-]. right. by left. }
    rewrite lookup_insert_ne by done.
    destruct (decide ("persistentRunButton.selectConfig" = id)) as [<-|H3].
    { rewrite lookup_insert_eq. intros [= <-]. by left. }
    rewrite lookup_insert_ne by done. by rewrite lookup_empty.
  - cbn [commands]. rewrite lookup_insert_ne by done. apply lookup_insert_eq.
  - cbn [commands]. apply lookup_insert_eq.
Qed.

(** X19. Registration never fails.  Starting with none of the commands
    registered, the registrations of [activate] succeed, and so does every
    later registration of the select command, however many entries are
    picked: the earlier registration is disposed before the command is
    registered again.  Afterwards the module holds the handle under which the
    select command is registered, the run and debug commands are registered
    as at activation, and [context.subscriptions] has grown by one disposable
    for each pick. *)
Theorem X19_registration_never_fails (picks : nat) :
  exists r handle,
    activate_registrations unregistered = Some activated
    /\ reregister picks activated = Some r
    /\ selectConfigDisposable r = Some (Registered "persistentRunButton.selectConfig" handle)
    /\ commands r !! "persistentRunButton.selectConfig" = Some handle
    /\ commands r !! "persistentRunButton.runSelected" = Some 1
    /\ commands r !! "persistentRunButton.debugSelected" = Some 2
    /\ length (subscriptions r) = 5 + picks.
Proof.
  destruct activate_registrations_unregistered as (Hr0 & Hreg0 & Hcov0 & Hlen0 & Hrun & Hdebug).
  destruct (reregister_registered picks activated Hreg0 Hcov0)
    as (r & Hr & (handle & Hheld & Hlive & _) & _ & Hlen & Hother).
  exists r, handle.
  split; [exact Hr0|]. split; [exact Hr|]. split; [exact Hheld|]. split; [exact Hlive|].
  split; [|split].
  - rewrite Hother; [exact Hrun|discriminate].
  - rewrite Hother; [exact Hdebug|discriminate].
  - rewrite Hlen, Hlen0. reflexivity.
Qed.

Lemma dispose_lookup_None (d : Disposable) (cmds : gmap string nat) (id : string) :
  cmds !! id = None -> dispose d cmds !! id = None.
Proof.
  intros Hnone. destruct d as [c n|ev]; cbn [dispose]; [|done].
  destruct (bool_decide _); [|done].
  destruct (decide (c = id)) as [->|Hne]; [by rewrite lookup_delete_eq|].
  by rewrite lookup_delete_ne.
Qed.

Lemma dispose_all_lookup (ds : list Disposable) (cmds : gmap string nat) (id : string) :
  (cmds !! id = None \/ exists handle, cmds !! id = Some handle /\ In (Registered id handle) ds) ->
  dispose_all ds cmds !! id = None.
Proof.
  revert cmds. induction ds as [|d ds IH]; intros cmds Hcases; simpl.
  - destruct Hcases as [Hnone|(handle & _ & [])]. done.
  - apply IH. destruct Hcases as [Hnone|(handle & Hlive & [->|Hin])].
    + left. by apply dispose_lookup_None.
    + left. cbn [dispose]. rewrite (bool_decide_eq_true_2 _ Hlive). by rewrite lookup_delete_eq.
    + destruct (dispose d cmds !! id) as [handle'|] eqn:Hafter; [|by left].
      right. exists handle. split; [|done].
      destruct d as [c n|ev]; cbn [dispose] in *; [|congruence].
      destruct (bool_decide _); [|congruence].
      destruct (decide (c = id)) as [->|Hne]; [by rewrite lookup_delete_eq in Hafter|].
      rewrite lookup_delete_ne in Hafter by done. congruence.
Qed.

(** X20. Cleanup through the subscriptions is complete: after activation and
    any number of picks, disposing everything in [context.subscriptions]
    leaves none of the commands registered, although the disposables of the
    earlier registrations of the select command are still in the list. *)
Theorem X20_subscriptions_dispose_everything (picks : nat) :
  exists r,
    activate_registrations unregistered = Some activated
    /\ reregister picks activated = Some r
    /\ dispose_all (subscriptions r) (commands r) = ∅.
Proof.
  destruct activate_registrations_unregistered as (Hr0 & Hreg0 & Hcov0 & _).
  destruct (reregister_registered picks activated Hreg0 Hcov0) as (r & Hr & _ & Hcov & _).
  exists r. split; [exact Hr0|]. split; [exact Hr|].
  apply map_eq. intros id. rewrite lookup_empty. apply dispose_all_lookup.
  destruct (commands r !! id) as [handle|] eqn:Hid; [|by left].
  right. exists handle. split; [done|]. by apply Hcov.
Qed.

(** ** The revision without compounds *)

Lemma legacy_folder_app (h : Host) (acc : list LaunchConfig.t) (folder : WorkspaceFolder.t) :
  Legacy.getAllConfigs_folder h acc folder
  = acc ++ map (fun c => LaunchConfig.mk (DebugConfiguration.name c) c folder)
               (default [] (launch_get h (WorkspaceFolder.uri folder) "configurations")).
Proof. unfold Legacy.getAllConfigs_folder. apply foldl_push. Qed.

Lemma legacy_loop (h : Host) (folders : list WorkspaceFolder.t) (acc : list LaunchConfig.t) :
  foldl (Legacy.getAllConfigs_folder h) acc folders
  = acc ++ flat_map
             (fun folder =>
                map (fun c => LaunchConfig.mk (DebugConfiguration.name c) c folder)
                    (default [] (launch_get h (WorkspaceFolder.uri folder) "configurations")))
             folders.
Proof.
  revert acc. induction folders as [|folder folders IH]; intros acc; simpl.
  - by rewrite app_nil_r.
  - rewrite IH, legacy_folder_app. by rewrite <- app_assoc.
Qed.

(** X21. The revision without compounds enumerates what the current code
    enumerates once the "compounds" of every launch section are taken away:
    each of its entries is an entry of the current enumeration, and the two
    enumerations are equal when no folder has compounds. *)
Theorem X21_legacy_enumeration (h : Host) :
  Legacy.getAllConfigs h = getAllConfigs (without_compounds h)
  /\ (forall e, In e (Legacy.getAllConfigs h) -> In e (getAllConfigs h))
  /\ ((forall root, default [] (launch_get h (WorkspaceFolder.uri root) "compounds") = []) ->
      Legacy.getAllConfigs h = getAllConfigs h).
Proof.
  assert (Hlegacy : Legacy.getAllConfigs h
                    = flat_map
                        (fun folder =>
                           map (fun c => LaunchConfig.mk (DebugConfiguration.name c) c folder)
                               (default [] (launch_get h (WorkspaceFolder.uri folder)
                                              "configurations")))
                        (default [] (workspaceFolders h))).
  { unfold Legacy.getAllConfigs. destruct (workspaceFolders h) as [folders|]; [|done].
    apply legacy_loop. }
  split; [|split].
  - rewrite Hlegacy, getAllConfigs_enumerate. unfold enumerate, entries_of. simpl.
    apply flat_map_ext. intros folder. by rewrite app_nil_r.
  - intros e. rewrite Hlegacy, getAllConfigs_enumerate. unfold enumerate.
    rewrite !in_flat_map. intros (root & Hroot & He). exists root. split; [done|].
    unfold entries_of. rewrite map_app. apply in_or_app. by left.
  - intros Hnone. rewrite Hlegacy, getAllConfigs_enumerate. unfold enumerate, entries_of.
    apply flat_map_ext. intros folder. by rewrite Hnone, app_nil_r.
Qed.

Lemma X21_legacy_enumeration_witness :
  In (Examples.entry Examples.test Examples.rootA) (getAllConfigs Examples.oneRoot)
  /\ Legacy.getAllConfigs (without_compounds Examples.oneRoot)
     = getAllConfigs (without_compounds Examples.oneRoot).
Proof.
  split.
  - apply (X21_legacy_enumeration Examples.oneRoot). right. left. reflexivity.
  - apply (X21_legacy_enumeration (without_compounds Examples.oneRoot)).
    intros root. reflexivity.
Defined.
